(** * A grid of instanced squares drawn once with WebGPU: [index.js]

    The script acquires a GPU device, uploads three buffers (the square's
    vertices, the grid dimensions, one flag per cell), compiles one WGSL
    shader and records a single instanced draw.  This development embeds

    - the typed arrays the script builds (JavaScript side),
    - the two WGSL entry points [vertexMain] and [fragmentMain], over
      IEEE-754 binary32 numbers,
    - the script itself, as a program in a small state-and-exception monad
      that talks to a host (browser and GPU) and leaves a trace of calls,

    and proves the properties stated about them. *)

From Stdlib Require Import ZArith List Lia Bool SpecFloat QArith.
From stdpp Require Import base list gmap strings.

Local Open Scope Z_scope.

(** ** Numbers *)

(** WGSL [f32] and the elements of a [Float32Array] are binary32 numbers:
    24 bits of precision, infinities at exponent 128.  Operations round to
    nearest, ties to even; a quotient is taken as correctly rounded too,
    which it is whenever it is exact, as with the divisor 32 of this
    program. *)
Module F32.

Definition prec : Z := 24.
Definition emax : Z := 128.

Definition t := spec_float.

Definition add : t -> t -> t := SFadd prec emax.
Definition sub : t -> t -> t := SFsub prec emax.
Definition mul : t -> t -> t := SFmul prec emax.
Definition div : t -> t -> t := SFdiv prec emax.

(** Conversion of an integer (a WGSL [u32], or an integer literal). *)
Definition of_Z (n : Z) : t := binary_normalize prec emax n 0 false.

(** Rounding of a wider binary float, as a [Float32Array] store does. *)
Definition round (x : spec_float) : t :=
  match x with
  | S754_finite s m e => binary_round prec emax s m e
  | _ => x
  end.

(** WGSL [floor]: the largest integer not above [x]. *)
Definition floor (x : t) : t :=
  match x with
  | S754_finite s m e =>
      if 0 <=? e then x
      else binary_normalize prec emax
             (Z.shiftr (cond_Zopp s (Zpos m)) (- e)) 0 s
  | _ => x
  end.

(** WGSL [trunc]: the integer part, rounding toward zero. *)
Definition trunc (x : t) : t :=
  match x with
  | S754_finite s m e =>
      if 0 <=? e then x
      else binary_normalize prec emax
             (cond_Zopp s (Z.shiftr (Zpos m) (- e))) 0 s
  | _ => x
  end.

(** WGSL [x % y] on floats is [x - y * trunc (x / y)]. *)
Definition rem (x y : t) : t := sub x (mul y (trunc (div x y))).

Definition is_finite (x : t) : bool :=
  match x with
  | S754_zero _ | S754_finite _ _ _ => true
  | _ => false
  end.

(** The rational a finite float stands for (0 for the others). *)
Definition to_Q (x : t) : Q :=
  match x with
  | S754_finite s m e => (inject_Z (cond_Zopp s (Zpos m)) * Qpower 2 e)%Q
  | _ => 0%Q
  end.

End F32.

(** JavaScript numbers are binary64. *)
Module F64.

Definition prec : Z := 53.
Definition emax : Z := 1024.

Definition of_Z (n : Z) : spec_float := binary_normalize prec emax n 0 false.
Definition div : spec_float -> spec_float -> spec_float := SFdiv prec emax.
Definition neg : spec_float -> spec_float := SFopp.

(** The literal [0.8]: the binary64 number nearest to 4/5. *)
Definition lit_0_8 : spec_float := S754_finite false 7205759403792794 (-53).

(** Conversion of an argument declared [GPUSize32] in the WebGPU interface
    (an [unsigned long] with range enforcement): the number is truncated and
    must then lie in [0, 2^32); otherwise the call raises a [TypeError]. *)
Definition to_GPUSize32 (x : spec_float) : option Z :=
  match x with
  | S754_zero _ => Some 0
  | S754_finite s m e =>
      let n := cond_Zopp s (if 0 <=? e then Z.shiftl (Zpos m) e
                            else Z.shiftr (Zpos m) (- e)) in
      if (0 <=? n) && (n <? 2 ^ 32) then Some n else None
  | _ => None
  end.

End F64.

(** ** Typed arrays *)

Abbreviation Float32Array := (list F32.t) (only parsing).
Abbreviation Uint32Array := (list Z) (only parsing).

(** [new Float32Array([...])] rounds every number to binary32. *)
Definition new_Float32Array (xs : list spec_float) : Float32Array :=
  map F32.round xs.

(** [new Uint32Array(n)] is [n] zeros. *)
Definition new_Uint32Array (n : Z) : Uint32Array := replicate (Z.to_nat n) 0.

Definition to_uint32 (v : Z) : Z := v mod 2 ^ 32.

(** [a[i] = v] on a [Uint32Array]: the value wraps to 32 bits and a write
    past the end is dropped. *)
Definition uint32_set (a : Uint32Array) (i : nat) (v : Z) : Uint32Array :=
  <[i := to_uint32 v]> a.

Inductive TypedArray :=
| F32Array (a : Float32Array)
| U32Array (a : Uint32Array).

Definition ta_length (a : TypedArray) : Z :=
  match a with
  | F32Array a => Z.of_nat (length a)
  | U32Array a => Z.of_nat (length a)
  end.

(** Both element types take four bytes. *)
Definition byteLength (a : TypedArray) : Z := 4 * ta_length a.

(** ** Constants and geometry of the script *)

Definition GRID_SIZE : Z := 32.

Definition createSquareVertices (size : spec_float) : Float32Array :=
  new_Float32Array
    [ F64.neg size; F64.neg size;
      size;         F64.neg size;
      size;         size;
      F64.neg size; F64.neg size;
      size;         size;
      F64.neg size; size ].

(** The loop [for (let i = 0; i < a.length; i += 3) a[i] = 1].  Every turn
    of the loop spends one unit of [fuel]; [None] means the fuel ran out. *)
Fixpoint mark_every_third (fuel : nat) (i : nat) (a : Uint32Array)
  : option Uint32Array :=
  if bool_decide (i < length a)%nat then
    match fuel with
    | O => None
    | S fuel' => mark_every_third fuel' (i + 3) (uint32_set a i 1)
    end
  else Some a.

(** ** The WGSL shader *)

Record vec2f := Vec2f { v2x : F32.t; v2y : F32.t }.
Record vec4f := Vec4f { v4x : F32.t; v4y : F32.t; v4z : F32.t; v4w : F32.t }.

Record VertexInput := { vi_pos : vec2f; vi_instance : Z }.
Record VertexOutput := { vo_pos : vec4f; vo_cell : vec2f }.

Module Wgsl.

(** Component-wise operators, with the scalar operand broadcast. *)
Definition vdiv (a b : vec2f) : vec2f :=
  Vec2f (F32.div (v2x a) (v2x b)) (F32.div (v2y a) (v2y b)).

Definition vadd (a b : vec2f) : vec2f :=
  Vec2f (F32.add (v2x a) (v2x b)) (F32.add (v2y a) (v2y b)).

Definition vmuls (a : vec2f) (s : F32.t) : vec2f :=
  Vec2f (F32.mul (v2x a) s) (F32.mul (v2y a) s).

Definition vadds (a : vec2f) (s : F32.t) : vec2f :=
  Vec2f (F32.add (v2x a) s) (F32.add (v2y a) s).

Definition vsubs (a : vec2f) (s : F32.t) : vec2f :=
  Vec2f (F32.sub (v2x a) s) (F32.sub (v2y a) s).

(** [array<u32>] indexing; an index past the end reads 0. *)
Definition index (a : Uint32Array) (i : Z) : Z :=
  default 0 (a !! Z.to_nat i).

End Wgsl.

Section Shader.

(** The two bindings of group 0. *)
Variable grid : vec2f.
Variable cellState : Uint32Array.

Definition vertexMain (input : VertexInput) : VertexOutput :=
  let i := F32.of_Z (vi_instance input) in
  let cell := Vec2f (F32.rem i (v2x grid)) (F32.floor (F32.div i (v2x grid))) in
  let state := F32.of_Z (Wgsl.index cellState (vi_instance input)) in
  let cellOffset := Wgsl.vmuls (Wgsl.vdiv cell grid) (F32.of_Z 2) in
  let gridPos :=
    Wgsl.vadd
      (Wgsl.vsubs
         (Wgsl.vdiv
            (Wgsl.vadds (Wgsl.vmuls (vi_pos input) state) (F32.of_Z 1))
            grid)
         (F32.of_Z 1))
      cellOffset in
  {| vo_pos := Vec4f (v2x gridPos) (v2y gridPos) (F32.of_Z 0) (F32.of_Z 1);
     vo_cell := cell |}.

Definition fragmentMain (input : VertexOutput) : vec4f :=
  let c := Wgsl.vdiv (vo_cell input) grid in
  Vec4f (v2x c) (v2y c) (F32.sub (F32.of_Z 1) (v2x c)) (F32.of_Z 1).

End Shader.

(** ** The GPU objects the script creates *)

Definition handle := nat.

(** [GPUBufferUsage] flags; [a | b] is the list of both. *)
Inductive GPUBufferUsage := VERTEX | COPY_DST | UNIFORM | STORAGE.

Definition usage_eqb (a b : GPUBufferUsage) : bool :=
  match a, b with
  | VERTEX, VERTEX | COPY_DST, COPY_DST | UNIFORM, UNIFORM | STORAGE, STORAGE => true
  | _, _ => false
  end.

(** Buffer contents are kept one 32-bit element at a time. *)
Inductive Word :=
| WF32 (x : F32.t)
| WU32 (n : Z).

Definition words (a : TypedArray) : list Word :=
  match a with
  | F32Array a => map WF32 a
  | U32Array a => map WU32 a
  end.

Record GpuBuffer := {
  buf_label : string;
  buf_size : Z;
  buf_usage : list GPUBufferUsage;
  buf_data : list Word;
}.

(** What a draw call uses: the state of its render pass when it is recorded. *)
Record DrawCall := {
  dc_pipeline : option handle;
  dc_vertexBuffers : gmap Z handle;
  dc_bindGroups : gmap Z handle;
  dc_vertexCount : Z;
  dc_instanceCount : Z;
}.

Record Pass := {
  pass_encoder : handle;
  pass_pipeline : option handle;
  pass_vertexBuffers : gmap Z handle;
  pass_bindGroups : gmap Z handle;
  pass_draws : list DrawCall;
}.

Record Gpu := {
  buffers : gmap handle GpuBuffer;
  bindGroups : gmap handle (gmap Z handle);
  passes : gmap handle Pass;
  (** commands recorded by an encoder, or held by a finished command buffer *)
  commands : gmap handle (list DrawCall);
  (** draw calls submitted to the device queue, oldest first *)
  queue : list DrawCall;
}.

Definition empty_gpu : Gpu :=
  {| buffers := ∅; bindGroups := ∅; passes := ∅; commands := ∅; queue := [] |}.

(** ** Calls the script makes on its host *)

Inductive Call :=
| QuerySelector (selector : string)
| RequestAdapter
| RequestDevice
| GetContext (contextId : string)
| GetPreferredCanvasFormat
| Configure
| CreateBuffer (b : handle) (label : string) (size : Z) (usage : list GPUBufferUsage)
| WriteBuffer (b : handle) (bufferOffset : Z) (data : TypedArray)
| CreateShaderModule (m : handle) (label : string)
| CreateRenderPipeline (p : handle) (label : string) (module : handle)
| GetBindGroupLayout (p : handle) (index : Z)
| CreateBindGroup (g : handle) (label : string) (entries : list (Z * handle))
| ConsoleLog (data : TypedArray)
| CreateCommandEncoder (e : handle)
| GetCurrentTexture
| CreateView
| BeginRenderPass (e : handle) (pass : handle)
| SetPipeline (pass : handle) (p : handle)
| SetVertexBuffer (pass : handle) (slot : Z) (b : handle)
| SetBindGroup (pass : handle) (index : Z) (g : handle)
| Draw (pass : handle) (vertexCount : Z) (instanceCount : Z)
| EndPass (pass : handle)
| Finish (e : handle) (commandBuffer : handle)
| Submit (commandBuffers : list handle).

Definition set_buffers (g : Gpu) (bs : gmap handle GpuBuffer) : Gpu :=
  {| buffers := bs; bindGroups := bindGroups g; passes := passes g;
     commands := commands g; queue := queue g |}.

Definition set_bindGroups (g : Gpu) (x : gmap handle (gmap Z handle)) : Gpu :=
  {| buffers := buffers g; bindGroups := x; passes := passes g;
     commands := commands g; queue := queue g |}.

Definition set_passes (g : Gpu) (x : gmap handle Pass) : Gpu :=
  {| buffers := buffers g; bindGroups := bindGroups g; passes := x;
     commands := commands g; queue := queue g |}.

Definition set_commands (g : Gpu) (x : gmap handle (list DrawCall)) : Gpu :=
  {| buffers := buffers g; bindGroups := bindGroups g; passes := passes g;
     commands := x; queue := queue g |}.

Definition set_queue (g : Gpu) (x : list DrawCall) : Gpu :=
  {| buffers := buffers g; bindGroups := bindGroups g; passes := passes g;
     commands := commands g; queue := x |}.

(** Overwriting the elements of [old] from position [at_word] on with [new],
    as far as [old] reaches. *)
Definition overwrite {A} (at_word : nat) (new old : list A) : list A :=
  take at_word old ++ take (length old - at_word) new
    ++ drop (at_word + length new) old.

Definition write_words (bufferOffset : Z) (data : TypedArray) (buf : GpuBuffer)
  : GpuBuffer :=
  {| buf_label := buf_label buf; buf_size := buf_size buf;
     buf_usage := buf_usage buf;
     buf_data := overwrite (Z.to_nat (bufferOffset / 4)) (words data)
                   (buf_data buf) |}.

Definition record_draw (vertexCount instanceCount : Z) (p : Pass) : Pass :=
  {| pass_encoder := pass_encoder p; pass_pipeline := pass_pipeline p;
     pass_vertexBuffers := pass_vertexBuffers p;
     pass_bindGroups := pass_bindGroups p;
     pass_draws := pass_draws p ++
       [ {| dc_pipeline := pass_pipeline p;
            dc_vertexBuffers := pass_vertexBuffers p;
            dc_bindGroups := pass_bindGroups p;
            dc_vertexCount := vertexCount;
            dc_instanceCount := instanceCount |} ] |}.

(** The effect of a successful call on the GPU objects.  A fresh buffer is
    zero-filled. *)
Definition perform (c : Call) (g : Gpu) : Gpu :=
  match c with
  | CreateBuffer b label size usage =>
      set_buffers g
        (<[b := {| buf_label := label; buf_size := size; buf_usage := usage;
                   buf_data := replicate (Z.to_nat (size / 4)) (WU32 0) |}]>
           (buffers g))
  | WriteBuffer b off data =>
      set_buffers g (alter (write_words off data) b (buffers g))
  | CreateBindGroup bg _ entries =>
      set_bindGroups g (<[bg := list_to_map entries]> (bindGroups g))
  | CreateCommandEncoder e =>
      set_commands g (<[e := []]> (commands g))
  | BeginRenderPass e p =>
      set_passes g
        (<[p := {| pass_encoder := e; pass_pipeline := None;
                   pass_vertexBuffers := ∅; pass_bindGroups := ∅;
                   pass_draws := [] |}]> (passes g))
  | SetPipeline p pl =>
      set_passes g
        (alter (fun x => {| pass_encoder := pass_encoder x;
                            pass_pipeline := Some pl;
                            pass_vertexBuffers := pass_vertexBuffers x;
                            pass_bindGroups := pass_bindGroups x;
                            pass_draws := pass_draws x |}) p (passes g))
  | SetVertexBuffer p slot b =>
      set_passes g
        (alter (fun x => {| pass_encoder := pass_encoder x;
                            pass_pipeline := pass_pipeline x;
                            pass_vertexBuffers := <[slot := b]> (pass_vertexBuffers x);
                            pass_bindGroups := pass_bindGroups x;
                            pass_draws := pass_draws x |}) p (passes g))
  | SetBindGroup p i bg =>
      set_passes g
        (alter (fun x => {| pass_encoder := pass_encoder x;
                            pass_pipeline := pass_pipeline x;
                            pass_vertexBuffers := pass_vertexBuffers x;
                            pass_bindGroups := <[i := bg]> (pass_bindGroups x);
                            pass_draws := pass_draws x |}) p (passes g))
  | Draw p vc ic =>
      set_passes g (alter (record_draw vc ic) p (passes g))
  | EndPass p =>
      match passes g !! p with
      | Some x =>
          set_commands g
            (alter (fun cs => cs ++ pass_draws x) (pass_encoder x) (commands g))
      | None => g
      end
  | Finish e cb =>
      set_commands g (<[cb := default [] (commands g !! e)]> (commands g))
  | Submit cbs =>
      set_queue g
        (queue g ++ concat (map (fun cb => default [] (commands g !! cb)) cbs))
  | _ => g
  end.

(** ** The host, and the monad the script runs in *)

(** What the script finds when it starts.  [api_ok n] tells whether the
    graphics call made after [n] earlier graphics calls succeeds. *)
Record Host := {
  has_canvas : bool;   (** [document.querySelector("canvas")] finds an element *)
  has_gpu : bool;      (** [navigator.gpu] is defined *)
  has_adapter : bool;  (** [requestAdapter()] resolves to an adapter, not [null] *)
  api_ok : nat -> bool;
}.

Inductive JsError :=
| Error (message : string)          (** raised by a [throw new Error(...)] *)
| TypeError (message : string)      (** raised by the runtime *)
| OperationError (c : Call).        (** the call [c] failed *)

Inductive Result (A : Type) :=
| Ok (a : A)
| Throw (e : JsError)
| Diverge.

Arguments Ok {A} a.
Arguments Throw {A} e.
Arguments Diverge {A}.

(** [trace] holds the calls made so far, newest first. *)
Record State := {
  trace : list Call;
  next_handle : handle;
  gpu : Gpu;
}.

Definition initial : State := {| trace := []; next_handle := 0%nat; gpu := empty_gpu |}.

Definition M (A : Type) : Type := Host -> State -> Result A * State.

#[global] Instance M_ret : MRet M := fun A a _ s => (Ok a, s).

#[global] Instance M_bind : MBind M := fun A B f m h s =>
  match m h s with
  | (Ok a, s') => f a h s'
  | (Throw e, s') => (Throw e, s')
  | (Diverge, s') => (Diverge, s')
  end.

Definition throw {A} (e : JsError) : M A := fun _ s => (Throw e, s).

Definition diverge {A} : M A := fun _ s => (Diverge, s).

Definition ask {A} (f : Host -> A) : M A := fun h s => (Ok (f h), s).

(** Calls on the page and the console are not graphics calls. *)
Definition is_graphics_call (c : Call) : bool :=
  match c with
  | QuerySelector _ | ConsoleLog _ => false
  | _ => true
  end.

(** How many graphics calls were made so far. *)
Definition asked (s : State) : nat := length (filter is_graphics_call (trace s)).

Definition log_call (c : Call) (s : State) : State :=
  {| trace := c :: trace s; next_handle := next_handle s; gpu := gpu s |}.

(** A call that cannot fail ([querySelector], [console.log]). *)
Definition emit (c : Call) : M unit := fun _ s =>
  (Ok tt, {| trace := c :: trace s; next_handle := next_handle s;
             gpu := perform c (gpu s) |}).

(** A graphics call: the host decides whether it succeeds.  A failed call is
    in the trace and leaves the GPU objects as they were. *)
Definition gpu_call (c : Call) : M unit := fun h s =>
  if api_ok h (asked s) then emit c h s
  else (Throw (OperationError c), log_call c s).

Definition fresh : M handle := fun _ s =>
  (Ok (next_handle s),
   {| trace := trace s; next_handle := S (next_handle s); gpu := gpu s |}).

Definition get_gpu : M Gpu := fun _ s => (Ok (gpu s), s).

(** ** The host interface, call by call *)

Definition querySelector (selector : string) : M bool :=
  emit (QuerySelector selector);; ask has_canvas.

Definition requestAdapter : M bool :=
  gpu_call RequestAdapter;; ask has_adapter.

Definition requestDevice : M unit := gpu_call RequestDevice.

(** [canvas.getContext(id)].  With no canvas the property read raises; a
    context that cannot be made comes back as [null]. *)
Definition getContext (canvas : bool) (contextId : string) : M bool :=
  if canvas then
    fun h s => (Ok (api_ok h (asked s)), log_call (GetContext contextId) s)
  else throw (TypeError "canvas is null").

Definition getPreferredCanvasFormat : M unit := gpu_call GetPreferredCanvasFormat.

Definition configure (context : bool) : M unit :=
  if context then gpu_call Configure else throw (TypeError "context is null").

Definition createBuffer (label : string) (size : Z) (usage : list GPUBufferUsage)
  : M handle :=
  b ← fresh; gpu_call (CreateBuffer b label size usage);; mret b.

(** [queue.writeBuffer] checks that the destination takes copies and that
    the data fits. *)
Definition valid_write (g : Gpu) (b : handle) (bufferOffset : Z) (data : TypedArray)
  : bool :=
  match buffers g !! b with
  | Some buf =>
      existsb (usage_eqb COPY_DST) (buf_usage buf)
      && (0 <=? bufferOffset) && (bufferOffset mod 4 =? 0)
      && (bufferOffset + byteLength data <=? buf_size buf)
  | None => false
  end.

Definition writeBuffer (b : handle) (bufferOffset : Z) (data : TypedArray) : M unit :=
  g ← get_gpu;
  if valid_write g b bufferOffset data
  then gpu_call (WriteBuffer b bufferOffset data)
  else throw (OperationError (WriteBuffer b bufferOffset data)).

Definition createShaderModule (label : string) : M handle :=
  m ← fresh; gpu_call (CreateShaderModule m label);; mret m.

Definition createRenderPipeline (label : string) (module : handle) : M handle :=
  p ← fresh; gpu_call (CreateRenderPipeline p label module);; mret p.

Definition getBindGroupLayout (p : handle) (index : Z) : M unit :=
  gpu_call (GetBindGroupLayout p index).

Definition createBindGroup (label : string) (entries : list (Z * handle)) : M handle :=
  g ← fresh; gpu_call (CreateBindGroup g label entries);; mret g.

Definition console_log (data : TypedArray) : M unit := emit (ConsoleLog data).

Definition createCommandEncoder : M handle :=
  e ← fresh; gpu_call (CreateCommandEncoder e);; mret e.

Definition getCurrentTexture : M unit := gpu_call GetCurrentTexture.

Definition createView : M unit := gpu_call CreateView.

Definition beginRenderPass (e : handle) : M handle :=
  p ← fresh; gpu_call (BeginRenderPass e p);; mret p.

Definition setPipeline (pass p : handle) : M unit := gpu_call (SetPipeline pass p).

Definition setVertexBuffer (pass : handle) (slot : Z) (b : handle) : M unit :=
  gpu_call (SetVertexBuffer pass slot b).

Definition setBindGroup (pass : handle) (index : Z) (g : handle) : M unit :=
  gpu_call (SetBindGroup pass index g).

(** [pass.draw(vertexCount, instanceCount)] takes two JavaScript numbers. *)
Definition draw (pass : handle) (vertexCount instanceCount : spec_float) : M unit :=
  match F64.to_GPUSize32 vertexCount, F64.to_GPUSize32 instanceCount with
  | Some vc, Some ic => gpu_call (Draw pass vc ic)
  | _, _ => throw (TypeError "value out of range")
  end.

Definition endPass (pass : handle) : M unit := gpu_call (EndPass pass).

Definition finish (e : handle) : M handle :=
  cb ← fresh; gpu_call (Finish e cb);; mret cb.

Definition submit (commandBuffers : list handle) : M unit :=
  gpu_call (Submit commandBuffers).

(** A loop of the script: the result if it ends within its fuel. *)
Definition loop {A} (r : option A) : M A :=
  match r with
  | Some a => mret a
  | None => diverge
  end.

(** ** The script *)

Definition vertices : Float32Array := createSquareVertices F64.lit_0_8.

Definition createGpuBuffer (vertices : TypedArray) (label : string) : M handle :=
  createBuffer label (byteLength vertices) [VERTEX; COPY_DST].

Definition uniformArray : Float32Array :=
  new_Float32Array [F64.of_Z GRID_SIZE; F64.of_Z GRID_SIZE].

(** [cellStateArray] as allocated, and after the loop that marks the cells. *)
Definition cellStateArray_new : Uint32Array :=
  new_Uint32Array (GRID_SIZE * GRID_SIZE).

Definition cellStateArray : option Uint32Array :=
  mark_every_third (length cellStateArray_new) 0 cellStateArray_new.

Definition main : M unit :=
  canvas ← querySelector "canvas";
  gpu ← ask has_gpu;
  if negb gpu then throw (Error "WebGPU not supported on this browser.") else
  adapter ← requestAdapter;
  if negb adapter then throw (Error "No appropriate GPUAdapter found.") else
  requestDevice;;
  context ← getContext canvas "webgpu";
  getPreferredCanvasFormat;;
  configure context;;
  vertexBuffer ← createGpuBuffer (F32Array vertices) "Cell vertices";
  writeBuffer vertexBuffer 0 (F32Array vertices);;
  cellShaderModule ← createShaderModule "Cell shader";
  cellPipeline ← createRenderPipeline "Cell pipeline" cellShaderModule;
  uniformBuffer ←
    createBuffer "Grid Uniforms" (byteLength (F32Array uniformArray))
      [UNIFORM; COPY_DST];
  writeBuffer uniformBuffer 0 (F32Array uniformArray);;
  cellStateStorage ←
    createBuffer "Cell state" (byteLength (U32Array cellStateArray_new))
      [STORAGE; COPY_DST];
  marked ← loop cellStateArray;
  console_log (U32Array marked);;
  writeBuffer cellStateStorage 0 (U32Array marked);;
  getBindGroupLayout cellPipeline 0;;
  bindGroup ←
    createBindGroup "Cell renderer bind group"
      [(0, uniformBuffer); (1, cellStateStorage)];
  encoder ← createCommandEncoder;
  getCurrentTexture;;
  createView;;
  pass ← beginRenderPass encoder;
  setPipeline pass cellPipeline;;
  setVertexBuffer pass 0 vertexBuffer;;
  setBindGroup pass 0 bindGroup;;
  draw pass
    (F64.div (F64.of_Z (Z.of_nat (length vertices))) (F64.of_Z 2))
    (F64.of_Z (GRID_SIZE * GRID_SIZE));;
  endPass pass;;
  commandBuffer ← finish encoder;
  submit [commandBuffer].

(** Running the script from a fresh page. *)
Definition run (h : Host) : Result unit * State := main h initial.

Definition outcome (h : Host) : Result unit := fst (run h).

(** The calls made, oldest first. *)
Definition calls (h : Host) : list Call := rev (trace (snd (run h))).

Definition final_gpu (h : Host) : Gpu := gpu (snd (run h)).

(** A host on which everything works. *)
Definition ideal_host : Host :=
  {| has_canvas := true; has_gpu := true; has_adapter := true;
     api_ok := fun _ => true |}.

(** ** What a submitted draw call computes *)

Definition word_f32 (w : Word) : option F32.t :=
  match w with WF32 x => Some x | WU32 _ => None end.

Definition word_u32 (w : Word) : option Z :=
  match w with WU32 n => Some n | WF32 _ => None end.

Definition read_f32 (g : Gpu) (b : handle) : option Float32Array :=
  buf ← buffers g !! b; mapM word_f32 (buf_data buf).

Definition read_u32 (g : Gpu) (b : handle) : option Uint32Array :=
  buf ← buffers g !! b; mapM word_u32 (buf_data buf).

(** [vertexBufferLayout]: vertices eight bytes apart, one [float32x2]
    attribute at offset 0 feeding [@location(0)]. *)
Definition arrayStride : Z := 8.

Definition vertex_pos (vs : Float32Array) (v : nat) : option vec2f :=
  let at_word := Z.to_nat (Z.of_nat v * arrayStride / 4) in
  x ← vs !! at_word; y ← vs !! S at_word; Some (Vec2f x y).

(** What the shader sees while a draw call runs: slot 0 of the vertex
    buffers, and bindings 0 ([grid]) and 1 ([cellState]) of group 0. *)
Record Bindings := {
  bound_vertices : Float32Array;
  bound_grid : vec2f;
  bound_cellState : Uint32Array;
}.

Definition bindings (g : Gpu) (dc : DrawCall) : option Bindings :=
  vb ← dc_vertexBuffers dc !! 0;
  vs ← read_f32 g vb;
  bg ← dc_bindGroups dc !! 0;
  entries ← bindGroups g !! bg;
  ub ← entries !! 0;
  u ← read_f32 g ub;
  gx ← u !! 0%nat;
  gy ← u !! 1%nat;
  sb ← entries !! 1;
  cs ← read_u32 g sb;
  Some {| bound_vertices := vs; bound_grid := Vec2f gx gy; bound_cellState := cs |}.

(** The vertex shader on vertex [v] of instance [i]. *)
Definition shade (bs : Bindings) (i v : nat) : option VertexOutput :=
  pos ← vertex_pos (bound_vertices bs) v;
  Some (vertexMain (bound_grid bs) (bound_cellState bs)
          {| vi_pos := pos; vi_instance := Z.of_nat i |}).

(** All vertices of all instances of a draw call, instance by instance. *)
Definition rendered (g : Gpu) (dc : DrawCall) : option (list (list VertexOutput)) :=
  bs ← bindings g dc;
  mapM (fun i => mapM (shade bs i) (seq 0 (Z.to_nat (dc_vertexCount dc))))
       (seq 0 (Z.to_nat (dc_instanceCount dc))).

(** The colour of a fragment of instance [i]: the three vertices of a
    triangle carry the same [cell], which the fragment receives. *)
Definition instance_color (grid : vec2f) (cellState : Uint32Array)
    (pos : vec2f) (i : Z) : vec4f :=
  fragmentMain grid (vertexMain grid cellState {| vi_pos := pos; vi_instance := i |}).

(** ** Reading a run *)

Definition is_Draw (c : Call) : bool :=
  match c with Draw _ _ _ => true | _ => false end.

Definition is_BeginRenderPass (c : Call) : bool :=
  match c with BeginRenderPass _ _ => true | _ => false end.

Definition is_Submit (c : Call) : bool :=
  match c with Submit _ => true | _ => false end.

(** Calls that open, fill, close and submit a render pass. *)
Definition is_render_call (c : Call) : bool :=
  match c with
  | BeginRenderPass _ _ | Draw _ _ _ | EndPass _ | Finish _ _ | Submit _ => true
  | _ => false
  end.

(** Calls that create a buffer, a pipeline or a draw command. *)
Definition is_creation (c : Call) : bool :=
  match c with
  | CreateBuffer _ _ _ _ | CreateShaderModule _ _ | CreateRenderPipeline _ _ _
  | CreateBindGroup _ _ _ | CreateCommandEncoder _ | BeginRenderPass _ _
  | Draw _ _ _ | Finish _ _ | Submit _ => true
  | _ => false
  end.

Definition creates_buffer (b : handle) (c : Call) : bool :=
  match c with CreateBuffer b' _ _ _ => Nat.eqb b b' | _ => false end.

Definition writes_buffer (b : handle) (c : Call) : bool :=
  match c with WriteBuffer b' _ _ => Nat.eqb b b' | _ => false end.

Definition is_CreateBuffer (c : Call) : bool :=
  match c with CreateBuffer _ _ _ _ => true | _ => false end.

(** The GPU objects after a sequence of successful calls. *)
Definition gpu_after (cs : list Call) : Gpu :=
  foldl (fun g c => perform c g) empty_gpu cs.

(** The buffer created under a label. *)
Definition buffer_named (g : Gpu) (label : string) : option (handle * GpuBuffer) :=
  head (filter (fun kv => String.eqb (buf_label (snd kv)) label)
          (map_to_list (buffers g))).

(** The typed-array view of what a buffer holds. *)
Definition uploaded_f32 (h : Host) (label : string) : option Float32Array :=
  kv ← buffer_named (final_gpu h) label; mapM word_f32 (buf_data (snd kv)).

Definition uploaded_u32 (h : Host) (label : string) : option Uint32Array :=
  kv ← buffer_named (final_gpu h) label; mapM word_u32 (buf_data (snd kv)).

(** How many of three flags are set. *)
Definition active_among (a : Uint32Array) (i : nat) : nat :=
  length (filter (fun v => v = Some 1) [a !! i; a !! S i; a !! S (S i)]).

(** ** Hosts *)

(** A supported device: [navigator.gpu] is there, an adapter is returned,
    and every graphics call succeeds. *)
Definition supported (h : Host) : Prop :=
  has_gpu h = true /\ has_adapter h = true /\ forall n, api_ok h n = true.

(** Two hosts that answer alike. *)
Definition same_host (h h' : Host) : Prop :=
  has_canvas h = has_canvas h' /\ has_gpu h = has_gpu h'
  /\ has_adapter h = has_adapter h' /\ forall n, api_ok h n = api_ok h' n.

(** A program whose run depends on the host through its answers only. *)
Definition respects {A} (m : M A) : Prop :=
  forall h h' s, same_host h h' -> m h s = m h' s.

(** The host that fails its [k]-th graphics call after all earlier ones
    succeeded, answers [b] to the call after that one, and then goes on as
    [rest] says; with no [k], the first [bound] graphics calls succeed. *)
Definition bound : nat := 32.

Definition probe (c g a : bool) (k : option nat) (b : bool) (rest : nat -> bool)
  : Host :=
  {| has_canvas := c; has_gpu := g; has_adapter := a;
     api_ok := fun n =>
       match k with
       | None => if (n <? bound)%nat then true else rest n
       | Some k =>
           if (n <? k)%nat then true
           else if (n =? k)%nat then false
           else if (n =? S k)%nat then b
           else rest n
       end |}.

Definition probes : list (option nat) := None :: map Some (seq 0 bound).

Definition grid32 : vec2f := Vec2f (F32.of_Z 32) (F32.of_Z 32).

Definition both : list bool := [true; false].

(** Hosts that lack one thing each. *)
Definition no_gpu_host : Host :=
  {| has_canvas := true; has_gpu := false; has_adapter := true;
     api_ok := fun _ => true |}.

Definition no_adapter_host : Host :=
  {| has_canvas := true; has_gpu := true; has_adapter := false;
     api_ok := fun _ => true |}.

Definition no_canvas_host : Host :=
  {| has_canvas := false; has_gpu := true; has_adapter := true;
     api_ok := fun _ => true |}.

(** The run on the ideal host, computed once. *)
Definition full_calls : list Call := Eval vm_compute in calls ideal_host.

Definition final_state : State := snd (run ideal_host).

#[global] Instance spec_float_eq_dec : EqDecision spec_float.
Proof. solve_decision. Defined.

#[global] Instance GPUBufferUsage_eq_dec : EqDecision GPUBufferUsage.
Proof. solve_decision. Defined.

#[global] Instance TypedArray_eq_dec : EqDecision TypedArray.
Proof. solve_decision. Defined.

#[global] Instance Call_eq_dec : EqDecision Call.
Proof. solve_decision. Defined.

#[global] Instance Word_eq_dec : EqDecision Word.
Proof. solve_decision. Defined.

#[global] Instance GpuBuffer_eq_dec : EqDecision GpuBuffer.
Proof. solve_decision. Defined.

#[global] Instance DrawCall_eq_dec : EqDecision DrawCall.
Proof. solve_decision. Defined.

#[global] Instance Pass_eq_dec : EqDecision Pass.
Proof. solve_decision. Defined.

#[global] Instance Gpu_eq_dec : EqDecision Gpu.
Proof. solve_decision. Defined.

#[global] Instance State_eq_dec : EqDecision State.
Proof. solve_decision. Defined.

#[global] Instance vec2f_eq_dec : EqDecision vec2f.
Proof. solve_decision. Defined.

#[global] Instance vec4f_eq_dec : EqDecision vec4f.
Proof. solve_decision. Defined.

#[global] Instance VertexOutput_eq_dec : EqDecision VertexOutput.
Proof. solve_decision. Defined.

(** What every run looks like, as a test on the host's three answers and the
    result: a completed run ends in the state of the ideal run; a run that
    throws made an initial part of the ideal run's calls, submitted nothing,
    threw an [Error] only for want of [navigator.gpu] or of an adapter, and
    threw an [OperationError] only for its last call. *)
Definition shape (c g a : bool) (r : Result unit * State) : bool :=
  match r.1 with
  | Ok _ => c && g && a && bool_decide (r.2 = final_state)
  | Throw e =>
      bool_decide (rev (trace r.2) = take (length (trace r.2)) full_calls)
      && bool_decide (queue (gpu r.2) = [])
      && match e with
         | Error _ => negb g || negb a
         | TypeError _ => true
         | OperationError x => bool_decide (head (trace r.2) = Some x)
         end
  | Diverge => false
  end.

Definition probes_ok (rest : nat -> bool) : bool :=
  forallb (fun c => forallb (fun g => forallb (fun a => forallb (fun k =>
    forallb (fun b => shape c g a (run (probe c g a k b rest))) both)
    probes) both) both) both.

(** ** The claims' vocabulary *)

(** The grid cell of an instance, as [vertexMain] computes it. *)
Definition cell_of (grid : vec2f) (instance : Z) : vec2f :=
  let i := F32.of_Z instance in
  Vec2f (F32.rem i (v2x grid)) (F32.floor (F32.div i (v2x grid))).

(** [1 / grid - 1 + cellOffset], with [cellOffset = cell / grid * 2]. *)
Definition collapse_point (grid : vec2f) (instance : Z) : vec2f :=
  Wgsl.vadd
    (Wgsl.vsubs (Wgsl.vdiv (Vec2f (F32.of_Z 1) (F32.of_Z 1)) grid) (F32.of_Z 1))
    (Wgsl.vmuls (Wgsl.vdiv (cell_of grid instance) grid) (F32.of_Z 2)).

(** [vec4f(c, 1 - c.x, 1)] with [c = cell / grid]. *)
Definition cell_color (grid cell : vec2f) : vec4f :=
  let c := Wgsl.vdiv cell grid in
  Vec4f (v2x c) (v2y c) (F32.sub (F32.of_Z 1) (v2x c)) (F32.of_Z 1).

(** The test behind the colour bounds of one instance of the 32 x 32 grid. *)
Definition color_sums_to_one (i : nat) : bool :=
  let col := cell_color grid32 (cell_of grid32 (Z.of_nat i)) in
  bool_decide (F32.add (v4x col) (v4z col) = F32.of_Z 1)
  && Qeq_bool (F32.to_Q (v4x col) + F32.to_Q (v4z col)) 1
  && F32.is_finite (v4x col) && F32.is_finite (v4z col)
  && bool_decide (v4w col = F32.of_Z 1).

(** The test that instance [i], with its six shaded vertices [outs], is
    drawn as the single point [collapse_point]. *)
Definition collapsed (grid : vec2f) (i : nat) (outs : list VertexOutput) : bool :=
  let pt := collapse_point grid (Z.of_nat i) in
  forallb (fun o => bool_decide
             (vo_pos o = Vec4f (v2x pt) (v2y pt) (F32.of_Z 0) (F32.of_Z 1)))
          outs.

(** The draw call the script records: pipeline 2, vertex buffer 0 in slot
    0, bind group 5 as group 0. *)
Definition the_draw : DrawCall :=
  {| dc_pipeline := Some 2%nat;
     dc_vertexBuffers := {[ 0 := 0%nat ]};
     dc_bindGroups := {[ 0 := 5%nat ]};
     dc_vertexCount := 6;
     dc_instanceCount := 1024 |}.

(** The vertices the one submitted draw call produces on the ideal host. *)
Definition frame : option (list (list VertexOutput)) :=
  dc ← head (queue (gpu final_state)); rendered (gpu final_state) dc.

Definition frame_ok (outs : list (list VertexOutput)) : bool :=
  (length outs =? 1024)%nat
  && forallb (fun x : nat * list VertexOutput =>
                (length x.2 =? 6)%nat
                && ((x.1 mod 3 =? 0)%nat || collapsed grid32 x.1 x.2))
       (zip (seq 0 1024) outs).

(** The test that the cell of instance [i] is column [i mod 32] of row
    [i / 32]. *)
Definition cell_is_row_column (i : nat) : bool :=
  bool_decide (cell_of grid32 (Z.of_nat i)
               = Vec2f (F32.of_Z (Z.of_nat i mod 32)) (F32.of_Z (Z.of_nat i / 32))).

(** The test that buffer [b] holds [buf] after every initial part of [cs]
    longer than [n], and after all of [cs]. *)
Definition holds_from (cs : list Call) (b : handle) (buf : GpuBuffer) (n : nat)
  : bool :=
  bool_decide (buffers (gpu_after cs) !! b = Some buf)
  && forallb (fun k => bool_decide (buffers (gpu_after (take k cs)) !! b = Some buf))
       (seq (S n) (length cs - n)).

(** The three uploads of the script: where in the sequence of calls the
    write is, and what is written. *)
Definition uploads : list (handle * (nat * TypedArray)) :=
  [ (0%nat, (7%nat, F32Array vertices));
    (3%nat, (11%nat, F32Array uniformArray));
    (4%nat, (14%nat, U32Array (default [] cellStateArray))) ].

Definition upload_ok (cs : list Call) (g : Gpu) (x : handle * (nat * TypedArray))
  : bool :=
  let '(b, (n, data)) := x in
  match buffers g !! b with
  | Some buf =>
      (length (filter (creates_buffer b) cs) =? 1)%nat
      && bool_decide (cs !! n = Some (WriteBuffer b 0 data))
      && bool_decide (filter (writes_buffer b) cs = [WriteBuffer b 0 data])
      && (buf_size buf =? byteLength data)
      && bool_decide (buf_data buf = words data)
      && holds_from cs b buf n
  | None => false
  end.

(** ** Vocabulary of the further properties *)

(** How many entries of an array are set. *)
Definition active_count (a : Uint32Array) : nat :=
  length (filter (fun v => v = 1) a).

(** The six corners [createSquareVertices] lists, for the rounded size [r]. *)
Definition square_of (r : F32.t) : Float32Array :=
  [ SFopp r; SFopp r;   r; SFopp r;   r; r;
    SFopp r; SFopp r;   r; r;   SFopp r; r ].

(** [createGpuBuffer(data, label)] followed by [writeBuffer] of the same
    data, as lines 51 and 52 have it. *)
Definition upload (data : TypedArray) (label : string) : M handle :=
  b ← createGpuBuffer data label;
  writeBuffer b 0 data;;
  mret b.

(** Column and row of an instance of the grid. *)
Definition column (i : Z) : Z := i mod GRID_SIZE.
Definition row (i : Z) : Z := i / GRID_SIZE.

(** In clip space, which runs from -1 to 1, column (or row) [k] of the grid
    starts at [cell_edge k], ends at [cell_edge (k + 1)] and has its middle
    at [cell_centre k]. *)
Definition cell_edge (k : Z) : Q := (2 * k # 32) - 1.
Definition cell_centre (k : Z) : Q := (2 * k + 1 # 32) - 1.

(** Corner [v] of the script's square. *)
Definition corner (v : nat) : vec2f :=
  default (Vec2f (F32.of_Z 0) (F32.of_Z 0)) (vertex_pos vertices v).

(** [a < b] on rationals, as a test. *)
Definition Qlt_bool (a b : Q) : bool := negb (Qle_bool b a).

Definition finite2 (x y : F32.t) : bool := F32.is_finite x && F32.is_finite y.

(** The tests behind the geometry and the colours of instance [i]. *)
Definition cell_exact (i : nat) : bool :=
  let c := cell_of grid32 (Z.of_nat i) in
  finite2 (v2x c) (v2y c)
  && Qeq_bool (F32.to_Q (v2x c)) (inject_Z (column (Z.of_nat i)))
  && Qeq_bool (F32.to_Q (v2y c)) (inject_Z (row (Z.of_nat i))).

Definition centre_exact (i : nat) : bool :=
  let pt := collapse_point grid32 (Z.of_nat i) in
  finite2 (v2x pt) (v2y pt)
  && Qeq_bool (F32.to_Q (v2x pt)) (cell_centre (column (Z.of_nat i)))
  && Qeq_bool (F32.to_Q (v2y pt)) (cell_centre (row (Z.of_nat i))).

Definition strictly_inside (k : Z) (x : F32.t) : bool :=
  F32.is_finite x
  && Qlt_bool (cell_edge k) (F32.to_Q x) && Qlt_bool (F32.to_Q x) (cell_edge (k + 1)).

Definition active_inside (i : nat) : bool :=
  forallb (fun v =>
             let out := vo_pos (vertexMain grid32 (replicate (S i) 1)
                                  {| vi_pos := corner v; vi_instance := Z.of_nat i |}) in
             strictly_inside (column (Z.of_nat i)) (v4x out)
             && strictly_inside (row (Z.of_nat i)) (v4y out)
             && bool_decide (v4z out = F32.of_Z 0)
             && bool_decide (v4w out = F32.of_Z 1))
          (seq 0 6).

Definition color_exact (i : nat) : bool :=
  let col := cell_color grid32 (cell_of grid32 (Z.of_nat i)) in
  finite2 (v4x col) (v4y col) && finite2 (v4z col) (v4w col)
  && Qeq_bool (F32.to_Q (v4x col)) (column (Z.of_nat i) # 32)
  && Qeq_bool (F32.to_Q (v4y col)) (row (Z.of_nat i) # 32)
  && Qeq_bool (F32.to_Q (v4z col)) (1 - (column (Z.of_nat i) # 32))
  && Qeq_bool (F32.to_Q (v4w col)) 1.

(** The graphics calls of the complete run, in order, and their number. *)
Definition graphics_calls : list Call := filter is_graphics_call full_calls.

Definition graphics_count : nat := length graphics_calls.

Definition is_Ok (r : Result unit) : bool :=
  match r with Ok _ => true | _ => false end.

(** The test that the run [r] stopped at the failure of its [j]-th graphics
    call: it threw the [OperationError] of that call, made the calls of the
    complete run up to that call and no other, left the GPU objects as the
    calls before it had made them, and submitted nothing. *)
Definition stopped_at (j : nat) (r : Result unit * State) : bool :=
  match r.1, graphics_calls !! j with
  | Throw (OperationError c), Some c' =>
      bool_decide (c = c')
      && bool_decide (head (trace r.2) = Some c)
      && bool_decide (rev (trace r.2) = take (length (trace r.2)) full_calls)
      && bool_decide (filter is_graphics_call (rev (trace r.2))
                      = take (S j) graphics_calls)
      && bool_decide (gpu r.2 = gpu_after (rev (tail (trace r.2))))
      && bool_decide (queue (gpu r.2) = [])
  | _, _ => false
  end.

(** [getContext] is graphics call number 2; its failure yields [null]. *)
Definition getContext_index : nat := 2.

(** The test over all probes with canvas, [navigator.gpu] and adapter: a
    failing graphics call other than [getContext] stops the run there, and
    no run with a failing graphics call completes. *)
Definition failures_stop (rest : nat -> bool) : bool :=
  forallb (fun k =>
    forallb (fun b =>
      match k with
      | Some j =>
          let r := run (probe true true true (Some j) b rest) in
          (graphics_count <=? j)%nat
          || (negb (is_Ok r.1)
              && ((j =? getContext_index)%nat || stopped_at j r))
      | None => true
      end) both) probes.

(** What a call needs to have happened before it: the creation of the
    objects it names, the upload of the buffers it binds, the state a draw
    call runs with, the end of the pass before the encoder is finished. *)
Definition needs (c : Call) : list (Call -> bool) :=
  match c with
  | RequestDevice => [fun x => bool_decide (x = RequestAdapter)]
  | Configure =>
      [fun x => bool_decide (x = RequestDevice);
       fun x => match x with GetContext _ => true | _ => false end]
  | CreateBuffer _ _ _ _ | CreateShaderModule _ _ | CreateCommandEncoder _ =>
      [fun x => bool_decide (x = RequestDevice)]
  | WriteBuffer b _ _ => [creates_buffer b]
  | CreateRenderPipeline _ _ m =>
      [fun x => match x with CreateShaderModule m' _ => Nat.eqb m m' | _ => false end]
  | GetBindGroupLayout p _ =>
      [fun x => match x with CreateRenderPipeline p' _ _ => Nat.eqb p p' | _ => false end]
  | CreateBindGroup _ _ entries =>
      flat_map (fun e : Z * handle => [creates_buffer e.2; writes_buffer e.2]) entries
  | GetCurrentTexture => [fun x => bool_decide (x = Configure)]
  | CreateView => [fun x => bool_decide (x = GetCurrentTexture)]
  | BeginRenderPass e _ =>
      [fun x => match x with CreateCommandEncoder e' => Nat.eqb e e' | _ => false end;
       fun x => bool_decide (x = CreateView)]
  | SetPipeline pass p =>
      [fun x => match x with BeginRenderPass _ pass' => Nat.eqb pass pass' | _ => false end;
       fun x => match x with CreateRenderPipeline p' _ _ => Nat.eqb p p' | _ => false end]
  | SetVertexBuffer pass _ b =>
      [fun x => match x with BeginRenderPass _ pass' => Nat.eqb pass pass' | _ => false end;
       creates_buffer b; writes_buffer b]
  | SetBindGroup pass _ g =>
      [fun x => match x with BeginRenderPass _ pass' => Nat.eqb pass pass' | _ => false end;
       fun x => match x with CreateBindGroup g' _ _ => Nat.eqb g g' | _ => false end]
  | Draw pass _ _ =>
      [fun x => match x with SetPipeline pass' _ => Nat.eqb pass pass' | _ => false end;
       fun x => match x with SetVertexBuffer pass' 0 _ => Nat.eqb pass pass' | _ => false end;
       fun x => match x with SetBindGroup pass' 0 _ => Nat.eqb pass pass' | _ => false end]
  | EndPass pass =>
      [fun x => match x with BeginRenderPass _ pass' => Nat.eqb pass pass' | _ => false end]
  | Finish e _ =>
      [fun x => match x with CreateCommandEncoder e' => Nat.eqb e e' | _ => false end;
       fun x => match x with EndPass _ => true | _ => false end]
  | Submit cbs =>
      map (fun cb x => match x with Finish _ cb' => Nat.eqb cb cb' | _ => false end) cbs
  | _ => []
  end.

(** Every call of [l] finds what it needs among the calls before it. *)
Definition in_order (l : list Call) : Prop :=
  forall (j : nat) (c : Call) (P : Call -> bool),
    l !! j = Some c -> In P (needs c) ->
    exists (i : nat) (c' : Call), (i < j)%nat /\ l !! i = Some c' /\ P c' = true.

Definition in_order_b (l : list Call) : bool :=
  forallb (fun j =>
             match l !! j with
             | Some c => forallb (fun P => existsb P (take j l)) (needs c)
             | None => true
             end)
          (seq 0 (length l)).

Definition has_usage (u : GPUBufferUsage) (g : Gpu) (b : handle) : bool :=
  match buffers g !! b with
  | Some buf => existsb (usage_eqb u) (buf_usage buf)
  | None => false
  end.

(** The test that the draw call [dc] fetches nothing past the end of its
    buffers: the vertex buffer holds [vertexCount] vertices of stride
    [arrayStride], the storage buffer one flag per instance, the uniform
    buffer the two numbers of [grid], each buffer was created for its use,
    and every vertex of every instance is shaded. *)
Definition draw_in_bounds (g : Gpu) (dc : DrawCall) : bool :=
  match dc_vertexBuffers dc !! 0, dc_bindGroups dc !! 0 with
  | Some vb, Some bg =>
      match bindGroups g !! bg with
      | Some entries =>
          match entries !! 0, entries !! 1, bindings g dc, rendered g dc with
          | Some ub, Some sb, Some bs, Some outs =>
              has_usage VERTEX g vb && has_usage UNIFORM g ub
              && has_usage STORAGE g sb
              && (4 * Z.of_nat (length (bound_vertices bs))
                  =? dc_vertexCount dc * arrayStride)
              && (Z.of_nat (length (bound_cellState bs)) =? dc_instanceCount dc)
              && (Z.of_nat (length outs) =? dc_instanceCount dc)
              && forallb (fun o : list VertexOutput =>
                            Z.of_nat (length o) =? dc_vertexCount dc) outs
              && bool_decide (dc_pipeline dc <> None)
          | _, _, _, _ => false
          end
      | None => false
      end
  | _, _ => false
  end.

(** * Properties *)

(** ** Runs depend on the host through its answers only *)

Section Respects.

Context {A B : Type}.

Lemma respects_ret (a : A) : respects (mret a : M A).
Proof. intros h h' s _. reflexivity. Qed.

Lemma respects_throw (e : JsError) : respects (throw e : M A).
Proof. intros h h' s _. reflexivity. Qed.

Lemma respects_diverge : respects (diverge : M A).
Proof. intros h h' s _. reflexivity. Qed.

Lemma respects_bind (m : M A) (f : A -> M B) :
  respects m -> (forall a, respects (f a)) -> respects (m ≫= f).
Proof.
  intros Hm Hf h h' s Hh. unfold mbind, M_bind.
  rewrite (Hm h h' s Hh).
  destruct (m h' s) as [[a| |] s']; try reflexivity.
  apply Hf, Hh.
Qed.

End Respects.

Lemma respects_emit c : respects (emit c).
Proof. intros h h' s _. reflexivity. Qed.

Lemma respects_fresh : respects fresh.
Proof. intros h h' s _. reflexivity. Qed.

Lemma respects_get_gpu : respects get_gpu.
Proof. intros h h' s _. reflexivity. Qed.

Lemma respects_gpu_call c : respects (gpu_call c).
Proof.
  intros h h' s (_ & _ & _ & Hok). unfold gpu_call.
  rewrite (Hok (asked s)). reflexivity.
Qed.

Lemma respects_has_canvas : respects (ask has_canvas).
Proof. intros h h' s (Hc & _). unfold ask. rewrite Hc. reflexivity. Qed.

Lemma respects_has_gpu : respects (ask has_gpu).
Proof. intros h h' s (_ & Hg & _). unfold ask. rewrite Hg. reflexivity. Qed.

Lemma respects_has_adapter : respects (ask has_adapter).
Proof. intros h h' s (_ & _ & Ha & _). unfold ask. rewrite Ha. reflexivity. Qed.

Lemma respects_getContext canvas contextId : respects (getContext canvas contextId).
Proof.
  intros h h' s (_ & _ & _ & Hok). unfold getContext.
  destruct canvas; [|reflexivity]. rewrite (Hok (asked s)). reflexivity.
Qed.

Lemma respects_loop {A} (r : option A) : respects (loop r).
Proof. destruct r; intros h h' s _; reflexivity. Qed.

Create HintDb respects.

#[local] Hint Resolve respects_ret respects_throw respects_diverge respects_emit
  respects_fresh respects_get_gpu respects_gpu_call respects_has_canvas
  respects_has_gpu respects_has_adapter respects_getContext respects_loop
  : respects.

Ltac respects_step :=
  match goal with
  | |- respects (mbind _ _) => apply respects_bind; [|intros ?]
  | |- respects (if ?b then _ else _) => destruct b
  | |- respects (match ?x with _ => _ end) => destruct x
  | |- respects _ => solve [auto with respects]
  end.

Lemma respects_main : respects main.
Proof.
  unfold main, querySelector, requestAdapter, requestDevice,
    getPreferredCanvasFormat, configure, createGpuBuffer, createBuffer,
    writeBuffer, createShaderModule, createRenderPipeline, getBindGroupLayout,
    createBindGroup, console_log, createCommandEncoder, getCurrentTexture,
    createView, beginRenderPass, setPipeline, setVertexBuffer, setBindGroup,
    draw, endPass, finish, submit.
  repeat respects_step.
Qed.

Lemma run_ext h h' : same_host h h' -> run h = run h'.
Proof. intros H. apply respects_main, H. Qed.

Lemma run_supported h :
  supported h -> has_canvas h = true -> run h = run ideal_host.
Proof.
  intros (Hg & Ha & Hok) Hc. apply run_ext.
  split; [exact Hc|]. split; [exact Hg|]. split; [exact Ha|]. exact Hok.
Qed.

(** ** Every run is the run of a probe *)

Lemma first_failure (ok : nat -> bool) (N : nat) :
  (forall n, (n < N)%nat -> ok n = true)
  \/ exists k, (k < N)%nat /\ ok k = false /\ forall n, (n < k)%nat -> ok n = true.
Proof.
  induction N as [|N IH].
  - left. intros n Hn. lia.
  - destruct IH as [Hall | (k & Hk & Hf & Hlt)].
    + destruct (ok N) eqn:HN.
      * left. intros n Hn. destruct (decide (n = N)) as [->|]; [done|].
        apply Hall. lia.
      * right. exists N. split; [lia|]. split; [done|]. exact Hall.
    + right. exists k. split; [lia|]. split; [done|]. exact Hlt.
Qed.

Lemma probe_covers h :
  exists k, In k probes /\
    same_host h (probe (has_canvas h) (has_gpu h) (has_adapter h) k
                   (api_ok h (S (default 0%nat k))) (api_ok h)).
Proof.
  destruct (first_failure (api_ok h) bound) as [Hall | (k & Hk & Hf & Hlt)].
  - exists None. split; [left; reflexivity|].
    repeat split; try reflexivity. intros n. simpl.
    destruct (n <? bound)%nat eqn:E; [|reflexivity].
    apply Hall. apply Nat.ltb_lt, E.
  - exists (Some k). split.
    + right. apply in_map, in_seq. lia.
    + repeat split; try reflexivity. intros n. simpl.
      destruct (n <? k)%nat eqn:E1.
      { apply Hlt, Nat.ltb_lt, E1. }
      destruct (n =? k)%nat eqn:E2.
      { apply Nat.eqb_eq in E2. subst. exact Hf. }
      destruct (n =? S k)%nat eqn:E3; [|reflexivity].
      apply Nat.eqb_eq in E3. subst. reflexivity.
Qed.

Lemma probes_ok_true rest : probes_ok rest = true.
Proof. vm_compute. reflexivity. Qed.

Lemma In_both (b : bool) : In b both.
Proof. destruct b; simpl; auto. Qed.

Lemma probes_shape c g a k b rest :
  In k probes -> shape c g a (run (probe c g a k b rest)) = true.
Proof.
  intros Hk.
  pose proof (probes_ok_true rest) as H. unfold probes_ok in H.
  rewrite forallb_forall in H. specialize (H c (In_both c)).
  rewrite forallb_forall in H. specialize (H g (In_both g)).
  rewrite forallb_forall in H. specialize (H a (In_both a)).
  rewrite forallb_forall in H. specialize (H k Hk).
  rewrite forallb_forall in H. exact (H b (In_both b)).
Qed.

Lemma run_shape h :
  shape (has_canvas h) (has_gpu h) (has_adapter h) (run h) = true.
Proof.
  destruct (probe_covers h) as (k & Hk & Hsame).
  rewrite (run_ext _ _ Hsame). apply probes_shape, Hk.
Qed.

(** ** What follows for completed and for aborted runs *)

Lemma full_calls_eq : calls ideal_host = full_calls.
Proof. vm_compute. reflexivity. Qed.

Lemma full_calls_NoDup : NoDup full_calls.
Proof. apply (bool_decide_unpack _). vm_compute. reflexivity. Qed.

Lemma ideal_completes : outcome ideal_host = Ok tt.
Proof. vm_compute. reflexivity. Qed.

Lemma completed_run h :
  outcome h = Ok tt ->
  snd (run h) = final_state
  /\ has_canvas h = true /\ has_gpu h = true /\ has_adapter h = true.
Proof.
  intros Hok. pose proof (run_shape h) as H.
  unfold outcome in Hok. unfold shape in H. rewrite Hok in H.
  apply andb_prop in H as [H Hs]. apply andb_prop in H as [H Ha].
  apply andb_prop in H as [Hc Hg].
  apply bool_decide_eq_true_1 in Hs. auto.
Qed.

Lemma completed_calls h : outcome h = Ok tt -> calls h = full_calls.
Proof.
  intros Hok. destruct (completed_run h Hok) as (Hs & _).
  unfold calls. rewrite Hs. apply full_calls_eq.
Qed.

Lemma completed_gpu h : outcome h = Ok tt -> final_gpu h = gpu final_state.
Proof.
  intros Hok. destruct (completed_run h Hok) as (Hs & _).
  unfold final_gpu. rewrite Hs. reflexivity.
Qed.

Lemma thrown_run h e :
  outcome h = Throw e ->
  calls h = take (length (calls h)) full_calls
  /\ queue (final_gpu h) = []
  /\ match e with
     | Error _ => has_gpu h = false \/ has_adapter h = false
     | TypeError _ => True
     | OperationError c => last (calls h) = Some c
     end.
Proof.
  intros He. pose proof (run_shape h) as H.
  unfold outcome in He. unfold shape in H. rewrite He in H.
  apply andb_prop in H as [H Hlast]. apply andb_prop in H as [Hpre Hq].
  apply bool_decide_eq_true_1 in Hpre, Hq.
  unfold calls, final_gpu. rewrite length_rev.
  split; [exact Hpre|]. split; [exact Hq|].
  destruct e as [msg|msg|c].
  - apply orb_prop in Hlast as [Hg | Ha]; [left | right];
      apply negb_true_iff; assumption.
  - exact I.
  - apply bool_decide_eq_true_1 in Hlast.
    destruct (trace (run h).2) as [|x t]; [discriminate|].
    simpl in Hlast. injection Hlast as ->. simpl. apply last_snoc.
Qed.

Lemma never_diverges h : outcome h <> Diverge.
Proof.
  intros Hd. pose proof (run_shape h) as H.
  unfold outcome in Hd. unfold shape in H. rewrite Hd in H. discriminate.
Qed.

Lemma calls_prefix h : calls h `prefix_of` full_calls.
Proof.
  destruct (outcome h) as [[]|e|] eqn:E.
  - rewrite (completed_calls h E). reflexivity.
  - destruct (thrown_run h e E) as (Hpre & _). rewrite Hpre. apply prefix_take.
  - destruct (never_diverges h E).
Qed.

Lemma filter_prefix_length {X} (P : X -> Prop) `{forall x, Decision (P x)}
    (l1 l2 : list X) :
  l1 `prefix_of` l2 -> (length (filter P l1) <= length (filter P l2))%nat.
Proof.
  intros (k & ->). rewrite filter_app, length_app. lia.
Qed.

(** ** Sanity of the number model *)

Example f32_lit_0_8 :
  F64.div (F64.of_Z 4) (F64.of_Z 5) = F64.lit_0_8
  /\ F32.round F64.lit_0_8 = S754_finite false 13421773 (-24).
Proof. split; vm_compute; reflexivity. Qed.

Example f32_rem_floor :
  F32.rem (F32.of_Z 33) (F32.of_Z 32) = F32.of_Z 1
  /\ F32.floor (F32.div (F32.of_Z 33) (F32.of_Z 32)) = F32.of_Z 1
  /\ F32.floor (F32.div (F32.of_Z (-1)) (F32.of_Z 32)) = F32.of_Z (-1)
  /\ F32.trunc (F32.div (F32.of_Z (-1)) (F32.of_Z 32)) = S754_zero true.
Proof. repeat split; vm_compute; reflexivity. Qed.

(** The lower left corner of the active cell 0 sits at (0.2 / 32 - 1), a
    little right of the left edge of clip space. *)
Example active_corner :
  let out := vertexMain grid32 [1]
               {| vi_pos := Vec2f (F32.round (F64.neg F64.lit_0_8))
                                  (F32.round (F64.neg F64.lit_0_8));
                  vi_instance := 0 |} in
  (-1 < F32.to_Q (v4x (vo_pos out)) < -99 # 100)%Q
  /\ v4x (vo_pos out) = v4y (vo_pos out).
Proof. vm_compute. repeat split; intros; discriminate. Qed.
Lemma to_uint32_1 : to_uint32 1 = 1.
Proof. reflexivity. Qed.

(** The loop ends within [length a - i] turns, keeps the length, and sets
    exactly the entries at [i], [i + 3], [i + 6], ... *)
Lemma mark_every_third_spec (fuel : nat) :
  forall (i : nat) (a : Uint32Array),
    (length a - i <= fuel)%nat ->
    exists a',
      mark_every_third fuel i a = Some a'
      /\ length a' = length a
      /\ forall j : nat,
           a' !! j =
           if decide (i <= j /\ (j - i) mod 3 = 0 /\ j < length a)%nat
           then Some 1 else a !! j.
Proof.
  induction fuel as [|fuel IH]; intros i a Hfuel.
  - cbn [mark_every_third]. case_bool_decide as Hi; [lia|].
    exists a. split; [reflexivity|]. split; [reflexivity|].
    intros j. case_decide; [lia | reflexivity].
  - cbn [mark_every_third]. case_bool_decide as Hi.
    + destruct (IH (i + 3)%nat (uint32_set a i 1)) as (a' & Hrun & Hlen & Hget).
      { unfold uint32_set. rewrite length_insert. lia. }
      unfold uint32_set in Hlen, Hget. rewrite length_insert in Hlen, Hget.
      exists a'. split; [exact Hrun|]. split; [exact Hlen|].
      intros j. rewrite Hget.
      destruct (decide (j = i)) as [->|Hne].
      * rewrite list_lookup_insert_eq by exact Hi. rewrite to_uint32_1.
        repeat case_decide; try reflexivity; try lia.
        exfalso. match goal with H : ¬ _ |- _ => apply H end.
        rewrite Nat.sub_diag. split; [lia|]. split; [reflexivity | lia].
      * rewrite list_lookup_insert_ne by congruence.
        assert (Hshift : forall d : nat, ((3 + d) mod 3 = d mod 3)%nat).
        { intros d. replace (3 + d)%nat with (d + 1 * 3)%nat by lia.
          apply Nat.Div0.mod_add. }
        repeat case_decide; try reflexivity; exfalso.
        -- match goal with H : ¬ _ |- _ => apply H end.
           destruct H as (H1 & H2 & H3). split; [lia|]. split; [|lia].
           replace (j - i)%nat with (3 + (j - (i + 3)))%nat by lia.
           rewrite Hshift. exact H2.
        -- match goal with H : ¬ _ |- _ => apply H end.
           destruct H0 as (H1 & H2 & H3).
           assert (i + 3 <= j)%nat.
           { destruct (decide (j - i < 3)%nat); [|lia].
             rewrite Nat.mod_small in H2 by lia. lia. }
           split; [lia|]. split; [|lia].
           replace (j - i)%nat with (3 + (j - (i + 3)))%nat in H2 by lia.
           rewrite Hshift in H2. exact H2.
    + exists a. split; [reflexivity|]. split; [reflexivity|].
      intros j. case_decide; [lia | reflexivity].
Qed.

Lemma cellStateArray_spec :
  exists a,
    cellStateArray = Some a
    /\ length a = 1024%nat
    /\ forall j : nat, (j < 1024)%nat ->
         a !! j = Some (if (j mod 3 =? 0)%nat then 1 else 0).
Proof.
  destruct (mark_every_third_spec (length cellStateArray_new) 0 cellStateArray_new)
    as (a & Hrun & Hlen & Hget); [lia|].
  assert (Hnew : length cellStateArray_new = 1024%nat) by reflexivity.
  exists a. split; [exact Hrun|]. split; [congruence|].
  intros j Hj. rewrite Hget, Hnew, Nat.sub_0_r.
  destruct (j mod 3 =? 0)%nat eqn:E.
  - apply Nat.eqb_eq in E. case_decide as H; [reflexivity|].
    exfalso. apply H. lia.
  - apply Nat.eqb_neq in E. case_decide as H; [lia|].
    unfold cellStateArray_new, new_Uint32Array. apply lookup_replicate_2. exact Hj.
Qed.

Lemma one_in_three (a : Uint32Array) (n : nat) :
  (forall j : nat, (j < n)%nat -> a !! j = Some (if (j mod 3 =? 0)%nat then 1 else 0)) ->
  forall i : nat, (i + 2 < n)%nat -> active_among a i = 1%nat.
Proof.
  intros Ha i Hi. unfold active_among.
  rewrite !Ha by lia.
  assert (Hm : (i mod 3 = 0 \/ i mod 3 = 1 \/ i mod 3 = 2)%nat).
  { pose proof (Nat.mod_upper_bound i 3). lia. }
  assert (H1 : (S i mod 3 = (i mod 3 + 1) mod 3)%nat).
  { replace (S i) with (i + 1)%nat by lia. symmetry. apply Nat.Div0.add_mod_idemp_l. }
  assert (H2 : (S (S i) mod 3 = (i mod 3 + 2) mod 3)%nat).
  { replace (S (S i)) with (i + 2)%nat by lia. symmetry. apply Nat.Div0.add_mod_idemp_l. }
  rewrite H1, H2.
  destruct Hm as [-> | [-> | ->]]; reflexivity.
Qed.

Lemma uploaded_cell_state_ideal :
  uploaded_u32 ideal_host "Cell state" = cellStateArray.
Proof. vm_compute. reflexivity. Qed.

Lemma completed_uploads h label :
  outcome h = Ok tt ->
  uploaded_u32 h label = uploaded_u32 ideal_host label
  /\ uploaded_f32 h label = uploaded_f32 ideal_host label.
Proof.
  intros Hok. unfold uploaded_u32, uploaded_f32.
  rewrite (completed_gpu h Hok). split; reflexivity.
Qed.

(** C1.  In a completed run, the array uploaded to the 'Cell state' buffer
    is the array the marking loop returns; it has 32 * 32 = 1024 entries,
    entry [i] is 1 when 3 divides [i] and 0 otherwise, and so exactly one of
    any three consecutive entries is 1. *)
Theorem cell_state_one_in_three (h : Host) :
  outcome h = Ok tt ->
  exists a : Uint32Array,
    cellStateArray = Some a
    /\ uploaded_u32 h "Cell state" = Some a
    /\ length a = Z.to_nat (GRID_SIZE * GRID_SIZE)
    /\ length a = 1024%nat
    /\ (forall i : nat, (i + 2 < 1024)%nat -> active_among a i = 1%nat)
    /\ (forall i : nat, (i < 1024)%nat ->
          a !! i = Some (if (i mod 3 =? 0)%nat then 1 else 0)).
Proof.
  intros Hok. destruct cellStateArray_spec as (a & Ha & Hlen & Hget).
  exists a. split; [exact Ha|]. split.
  - destruct (completed_uploads h "Cell state" Hok) as (-> & _).
    rewrite uploaded_cell_state_ideal. exact Ha.
  - split; [exact Hlen|]. split; [exact Hlen|]. split; [|exact Hget].
    apply one_in_three, Hget.
Qed.

Lemma cell_state_one_in_three_witness :
  outcome ideal_host = Ok tt
  /\ exists a : Uint32Array,
       cellStateArray = Some a
       /\ uploaded_u32 ideal_host "Cell state" = Some a
       /\ length a = Z.to_nat (GRID_SIZE * GRID_SIZE)
       /\ length a = 1024%nat
       /\ (forall i : nat, (i + 2 < 1024)%nat -> active_among a i = 1%nat)
       /\ (forall i : nat, (i < 1024)%nat ->
             a !! i = Some (if (i mod 3 =? 0)%nat then 1 else 0)).
Proof.
  split; [vm_compute; reflexivity|].
  apply (cell_state_one_in_three ideal_host). vm_compute. reflexivity.
Defined.

(** ** The shader *)

Lemma vertexMain_cell grid cellState input :
  vo_cell (vertexMain grid cellState input) = cell_of grid (vi_instance input).
Proof. reflexivity. Qed.

Lemma fragmentMain_cell grid input :
  fragmentMain grid input = cell_color grid (vo_cell input).
Proof. reflexivity. Qed.

Lemma instance_color_cell grid cellState pos i :
  instance_color grid cellState pos i = cell_color grid (cell_of grid i).
Proof. reflexivity. Qed.

(** On the 32 x 32 grid the cell of instance [i] is column [i mod 32] of
    row [i / 32]. *)
Lemma cells_of_grid : forallb cell_is_row_column (seq 0 1024) = true.
Proof. vm_compute. reflexivity. Qed.

Lemma cell_of_grid32 (i : Z) :
  0 <= i < 1024 ->
  cell_of grid32 i = Vec2f (F32.of_Z (i mod 32)) (F32.of_Z (i / 32)).
Proof.
  intros Hi. pose proof cells_of_grid as H. rewrite forallb_forall in H.
  assert (Hin : In (Z.to_nat i) (seq 0 1024)) by (apply in_seq; lia).
  specialize (H (Z.to_nat i) Hin). unfold cell_is_row_column in H.
  rewrite Z2Nat.id in H by lia.
  apply bool_decide_eq_true_1 in H. exact H.
Qed.

(** A finite number times zero, plus one, is one: the product is a zero of
    either sign. *)
Lemma mul_zero_add_one (x : F32.t) :
  F32.is_finite x = true ->
  F32.add (F32.mul x (F32.of_Z 0)) (F32.of_Z 1) = F32.of_Z 1.
Proof.
  destruct x as [s|s| |s m e]; simpl; intros H; try discriminate;
    destruct s; reflexivity.
Qed.

Lemma scaled_to_zero (p : vec2f) :
  F32.is_finite (v2x p) = true -> F32.is_finite (v2y p) = true ->
  Wgsl.vadds (Wgsl.vmuls p (F32.of_Z 0)) (F32.of_Z 1)
  = Vec2f (F32.of_Z 1) (F32.of_Z 1).
Proof.
  intros Hx Hy. unfold Wgsl.vadds, Wgsl.vmuls. cbn [v2x v2y].
  rewrite !mul_zero_add_one by assumption. reflexivity.
Qed.

(** The flag does reach the vertex position: instance 0 with the corner
    (0.8, 0.8) lands elsewhere when its flag goes from 1 to 0. *)
Lemma flag_moves_vertex :
  let corner := Vec2f (F32.round F64.lit_0_8) (F32.round F64.lit_0_8) in
  vo_pos (vertexMain grid32 [1] {| vi_pos := corner; vi_instance := 0 |})
  <> vo_pos (vertexMain grid32 [0] {| vi_pos := corner; vi_instance := 0 |}).
Proof.
  intros corner. subst corner.
  apply (bool_decide_unpack _). vm_compute. reflexivity.
Qed.

(** C2, as amended.  The colour of an instance is a function of its grid
    cell alone, [vec4f(c, 1 - c.x, 1)] with [c = cell / grid]: it is the
    same whatever the cell-state array and the vertex position are.  The
    flag acts on the vertex position instead. *)
Theorem color_depends_on_cell_only :
  (forall (grid : vec2f) (cellState cellState' : Uint32Array)
          (pos pos' : vec2f) (i : Z),
      instance_color grid cellState pos i = instance_color grid cellState' pos' i)
  /\ (forall (grid : vec2f) (cellState : Uint32Array) (pos : vec2f) (i : Z),
        instance_color grid cellState pos i = cell_color grid (cell_of grid i))
  /\ (exists (pos : vec2f) (i : Z),
        vo_pos (vertexMain grid32 [1] {| vi_pos := pos; vi_instance := i |})
        <> vo_pos (vertexMain grid32 [0] {| vi_pos := pos; vi_instance := i |})).
Proof.
  split; [reflexivity|]. split; [reflexivity|].
  eexists _, 0. exact flag_moves_vertex.
Qed.

(** C2, as stated, fails: no instance changes colour when its flag goes
    from active to inactive; instance 0 of the grid is an example. *)
Lemma flag_changes_no_color :
  instance_color grid32 [1] (Vec2f (F32.of_Z 0) (F32.of_Z 0)) 0
  = instance_color grid32 [0] (Vec2f (F32.of_Z 0) (F32.of_Z 0)) 0
  /\ ~ exists (grid : vec2f) (active inactive : Uint32Array) (pos : vec2f) (i : Z),
         Wgsl.index active i = 1 /\ Wgsl.index inactive i = 0
         /\ instance_color grid active pos i <> instance_color grid inactive pos i.
Proof.
  split; [reflexivity|].
  intros (grid & active & inactive & pos & i & _ & _ & Hne).
  apply Hne. reflexivity.
Qed.

(** With the flag at 0 every finite position is sent to the same point. *)
Lemma inactive_vertex
    (grid : vec2f) (cellState : Uint32Array) (instance : Z) (p : vec2f) :
  Wgsl.index cellState instance = 0 ->
  F32.is_finite (v2x p) = true ->
  F32.is_finite (v2y p) = true ->
  vertexMain grid cellState {| vi_pos := p; vi_instance := instance |}
  = {| vo_pos := Vec4f (v2x (collapse_point grid instance))
                       (v2y (collapse_point grid instance))
                       (F32.of_Z 0) (F32.of_Z 1);
       vo_cell := cell_of grid instance |}.
Proof.
  intros Hflag Hx Hy.
  unfold vertexMain, collapse_point, cell_of. cbn [vi_pos vi_instance].
  rewrite Hflag, (scaled_to_zero p Hx Hy).
  reflexivity.
Qed.

(** C9.  When the flag of an instance is 0, the vertex shader sends every
    finite vertex position to the same point, [1 / grid - 1 + cellOffset]:
    the output does not depend on the input position, and the six vertices
    of the square all land on that point. *)
Theorem inactive_cell_is_a_point
    (grid : vec2f) (cellState : Uint32Array) (instance : Z) :
  Wgsl.index cellState instance = 0 ->
  let point :=
    {| vo_pos := Vec4f (v2x (collapse_point grid instance))
                       (v2y (collapse_point grid instance))
                       (F32.of_Z 0) (F32.of_Z 1);
       vo_cell := cell_of grid instance |} in
  (forall p : vec2f,
      F32.is_finite (v2x p) = true -> F32.is_finite (v2y p) = true ->
      vertexMain grid cellState {| vi_pos := p; vi_instance := instance |} = point)
  /\ (forall v : nat, (v < 6)%nat ->
         exists p : vec2f,
           vertex_pos vertices v = Some p
           /\ vertexMain grid cellState {| vi_pos := p; vi_instance := instance |}
              = point).
Proof.
  intros Hflag point. split.
  - intros p Hx Hy. apply inactive_vertex; assumption.
  - intros v Hv.
    do 6 (destruct v as [|v];
          [eexists; split; [reflexivity|];
           apply inactive_vertex; [exact Hflag | reflexivity | reflexivity]|]).
    lia.
Qed.

Lemma inactive_cell_is_a_point_witness :
  let point :=
    {| vo_pos := Vec4f (v2x (collapse_point grid32 1))
                       (v2y (collapse_point grid32 1))
                       (F32.of_Z 0) (F32.of_Z 1);
       vo_cell := cell_of grid32 1 |} in
  Wgsl.index [1; 0; 0; 1] 1 = 0
  /\ forall v : nat, (v < 6)%nat ->
       exists p : vec2f,
         vertex_pos vertices v = Some p
         /\ vertexMain grid32 [1; 0; 0; 1] {| vi_pos := p; vi_instance := 1 |}
            = point.
Proof.
  intros point. split; [reflexivity|].
  apply (inactive_cell_is_a_point grid32 [1; 0; 0; 1] 1). reflexivity.
Defined.

(** The frame of the one draw call: 1024 instances of six vertices, and every
    instance whose index 3 does not divide is collapsed. *)
Lemma frame_collapses :
  exists outs, frame = Some outs /\ frame_ok outs = true.
Proof.
  assert (H : from_option frame_ok false frame = true) by (vm_compute; reflexivity).
  destruct frame as [outs|]; [|discriminate]. exists outs. split; [reflexivity | exact H].
Qed.

Lemma grid_colors_ok : forallb color_sums_to_one (seq 0 1024) = true.
Proof. vm_compute. reflexivity. Qed.

(** C10.  For every instance of the 32 x 32 grid the fragment colour is
    [vec4f(c.x, c.y, 1 - c.x, 1)] with [c = cell / grid]; its alpha is 1 and
    its red and blue channels add up to 1, as binary32 numbers and as the
    rationals they stand for. *)
Theorem color_red_plus_blue (i : Z) (cellState : Uint32Array) (pos : vec2f) :
  0 <= i < GRID_SIZE * GRID_SIZE ->
  let c := Wgsl.vdiv (cell_of grid32 i) grid32 in
  let col := instance_color grid32 cellState pos i in
  col = Vec4f (v2x c) (v2y c) (F32.sub (F32.of_Z 1) (v2x c)) (F32.of_Z 1)
  /\ v4w col = F32.of_Z 1
  /\ F32.add (v4x col) (v4z col) = F32.of_Z 1
  /\ F32.is_finite (v4x col) = true /\ F32.is_finite (v4z col) = true
  /\ (F32.to_Q (v4x col) + F32.to_Q (v4z col) == 1)%Q.
Proof.
  intros Hi c col. subst c col. rewrite instance_color_cell.
  split; [reflexivity|].
  pose proof grid_colors_ok as H. rewrite forallb_forall in H.
  specialize (H (Z.to_nat i)).
  assert (Hin : In (Z.to_nat i) (seq 0 1024)).
  { apply in_seq. change (GRID_SIZE * GRID_SIZE) with 1024 in Hi. lia. }
  specialize (H Hin). unfold color_sums_to_one in H.
  rewrite Z2Nat.id in H by lia.
  repeat (apply andb_prop in H as [H ?]).
  split; [reflexivity|].
  split; [apply bool_decide_eq_true_1 in H; exact H|].
  split; [assumption|]. split; [assumption|].
  apply Qeq_bool_iff. assumption.
Qed.

Lemma color_red_plus_blue_witness :
  let c := Wgsl.vdiv (cell_of grid32 37) grid32 in
  let col := instance_color grid32 [] (Vec2f (F32.of_Z 0) (F32.of_Z 0)) 37 in
  0 <= 37 < GRID_SIZE * GRID_SIZE
  /\ col = Vec4f (v2x c) (v2y c) (F32.sub (F32.of_Z 1) (v2x c)) (F32.of_Z 1)
  /\ v4w col = F32.of_Z 1
  /\ F32.add (v4x col) (v4z col) = F32.of_Z 1
  /\ F32.is_finite (v4x col) = true /\ F32.is_finite (v4z col) = true
  /\ (F32.to_Q (v4x col) + F32.to_Q (v4z col) == 1)%Q.
Proof.
  intros c col. split; [unfold GRID_SIZE; lia|].
  apply (color_red_plus_blue 37 [] (Vec2f (F32.of_Z 0) (F32.of_Z 0))).
  unfold GRID_SIZE. lia.
Defined.

(** ** The script *)

(** C3, as amended.  On a supported device, and with a canvas element in
    the page, the script runs to its end without throwing. *)
Theorem supported_with_canvas_completes (h : Host) :
  supported h -> has_canvas h = true -> outcome h = Ok tt.
Proof.
  intros Hs Hc. unfold outcome. rewrite (run_supported h Hs Hc).
  exact ideal_completes.
Qed.

Lemma supported_with_canvas_completes_witness :
  supported ideal_host /\ has_canvas ideal_host = true
  /\ outcome ideal_host = Ok tt.
Proof.
  assert (Hs : supported ideal_host).
  { split; [reflexivity|]. split; [reflexivity|]. intros n. reflexivity. }
  split; [exact Hs|]. split; [reflexivity|].
  apply (supported_with_canvas_completes ideal_host Hs). reflexivity.
Defined.

(** C3, as stated, fails: on a supported device whose page has no canvas
    element, the script passes both capability checks, obtains its device
    and then throws a [TypeError] when it reads [canvas.getContext]. *)
Lemma no_canvas_throws :
  supported no_canvas_host
  /\ outcome no_canvas_host = Throw (TypeError "canvas is null")
  /\ calls no_canvas_host = [QuerySelector "canvas"; RequestAdapter; RequestDevice].
Proof.
  split.
  - split; [reflexivity|]. split; [reflexivity|]. intros n. reflexivity.
  - split; vm_compute; reflexivity.
Qed.

Lemma no_gpu_run (h : Host) :
  has_gpu h = false ->
  run h = (Throw (Error "WebGPU not supported on this browser."),
           {| trace := [QuerySelector "canvas"]; next_handle := 0%nat;
              gpu := empty_gpu |}).
Proof.
  destruct h as [c g a ok]. simpl. intros ->. vm_compute. reflexivity.
Qed.

Lemma no_adapter_run (h : Host) :
  has_gpu h = true -> api_ok h 0%nat = true -> has_adapter h = false ->
  run h = (Throw (Error "No appropriate GPUAdapter found."),
           {| trace := [RequestAdapter; QuerySelector "canvas"];
              next_handle := 0%nat; gpu := empty_gpu |}).
Proof.
  destruct h as [c g a ok]. simpl. intros -> Hok ->.
  rewrite (run_ext _ {| has_canvas := c; has_gpu := true; has_adapter := false;
                        api_ok := fun n => if (n =? 0)%nat then true else ok n |}).
  - vm_compute. reflexivity.
  - repeat split. intros n. simpl. destruct n; [exact Hok | reflexivity].
Qed.

(** C4.  The script throws an [Error] of its own in two places only, the
    two capability checks: without [navigator.gpu] it stops after looking
    up the canvas, without an adapter it stops after [requestAdapter]; in
    both cases nothing has been created.  An [Error] is thrown in no other
    case.  Nothing is retried and nothing is recovered from: the calls of
    any run are an initial part of the calls of the complete run, in which
    no call occurs twice, and a run that throws has submitted nothing. *)
Theorem single_abort_path (h : Host) :
  (has_gpu h = false ->
     outcome h = Throw (Error "WebGPU not supported on this browser.")
     /\ calls h = [QuerySelector "canvas"]
     /\ filter is_creation (calls h) = [])
  /\ (has_gpu h = true -> api_ok h 0%nat = true -> has_adapter h = false ->
        outcome h = Throw (Error "No appropriate GPUAdapter found.")
        /\ calls h = [QuerySelector "canvas"; RequestAdapter]
        /\ filter is_creation (calls h) = [])
  /\ (forall msg, outcome h = Throw (Error msg) ->
        has_gpu h = false \/ has_adapter h = false)
  /\ calls h `prefix_of` calls ideal_host
  /\ NoDup (calls ideal_host)
  /\ (forall e, outcome h = Throw e -> queue (final_gpu h) = [])
  /\ outcome h <> Diverge.
Proof.
  split.
  { intros Hg. unfold outcome, calls. rewrite (no_gpu_run h Hg).
    repeat split. }
  split.
  { intros Hg Hok Ha. unfold outcome, calls. rewrite (no_adapter_run h Hg Hok Ha).
    repeat split. }
  split.
  { intros msg He. destruct (thrown_run h _ He) as (_ & _ & H). exact H. }
  split; [rewrite full_calls_eq; apply calls_prefix|].
  split; [rewrite full_calls_eq; apply full_calls_NoDup|].
  split; [|apply never_diverges].
  intros e He. destruct (thrown_run h _ He) as (_ & H & _). exact H.
Qed.

Lemma single_abort_path_witness :
  (has_gpu no_gpu_host = false
   /\ outcome no_gpu_host = Throw (Error "WebGPU not supported on this browser.")
   /\ calls no_gpu_host = [QuerySelector "canvas"])
  /\ (has_gpu no_adapter_host = true /\ api_ok no_adapter_host 0%nat = true
      /\ has_adapter no_adapter_host = false
      /\ outcome no_adapter_host = Throw (Error "No appropriate GPUAdapter found.")
      /\ calls no_adapter_host = [QuerySelector "canvas"; RequestAdapter]).
Proof.
  split.
  - split; [reflexivity|].
    destruct (single_abort_path no_gpu_host) as (H & _).
    destruct (H eq_refl) as (Ho & Hc & _). split; [exact Ho | exact Hc].
  - split; [reflexivity|]. split; [reflexivity|]. split; [reflexivity|].
    destruct (single_abort_path no_adapter_host) as (_ & H & _).
    destruct (H eq_refl eq_refl eq_refl) as (Ho & Hc & _).
    split; [exact Ho | exact Hc].
Defined.

Lemma full_calls_render :
  filter is_render_call full_calls
  = [BeginRenderPass 6%nat 7%nat; Draw 7%nat 6 1024; EndPass 7%nat;
     Finish 6%nat 8%nat; Submit [8%nat]]
  /\ length (filter is_Draw full_calls) = 1%nat
  /\ length (filter is_BeginRenderPass full_calls) = 1%nat
  /\ length (filter is_Submit full_calls) = 1%nat.
Proof. repeat split; vm_compute; reflexivity. Qed.

Lemma final_queue :
  queue (gpu final_state) = [the_draw].
Proof. vm_compute. reflexivity. Qed.

Lemma queue_at_most_one h : (length (queue (final_gpu h)) <= 1)%nat.
Proof.
  destruct (outcome h) as [[]|e|] eqn:E.
  - rewrite (completed_gpu h E), final_queue. simpl. lia.
  - destruct (thrown_run h e E) as (_ & -> & _). simpl. lia.
  - destruct (never_diverges h E).
Qed.

(** C5.  No run makes a second draw call, opens a second render pass or
    submits a second time, and at most one draw call ever reaches the
    queue.  A completed run has made exactly one draw call, inside the one
    render pass of the one command buffer it submits, and that draw call is
    the whole queue. *)
Theorem exactly_one_draw (h : Host) :
  ((length (filter is_Draw (calls h)) <= 1)%nat
   /\ (length (filter is_BeginRenderPass (calls h)) <= 1)%nat
   /\ (length (filter is_Submit (calls h)) <= 1)%nat
   /\ (length (queue (final_gpu h)) <= 1)%nat)
  /\ (outcome h = Ok tt ->
        (exists e pass cb,
            filter is_render_call (calls h)
            = [BeginRenderPass e pass; Draw pass 6 1024; EndPass pass;
               Finish e cb; Submit [cb]])
        /\ length (filter is_Draw (calls h)) = 1%nat
        /\ length (filter is_BeginRenderPass (calls h)) = 1%nat
        /\ length (filter is_Submit (calls h)) = 1%nat
        /\ length (queue (final_gpu h)) = 1%nat).
Proof.
  destruct full_calls_render as (Hr & Hd & Hb & Hs).
  split.
  - pose proof (calls_prefix h) as Hp.
    split; [rewrite <- Hd; apply filter_prefix_length, Hp|].
    split; [rewrite <- Hb; apply filter_prefix_length, Hp|].
    split; [rewrite <- Hs; apply filter_prefix_length, Hp|].
    apply queue_at_most_one.
  - intros Hok. rewrite (completed_calls h Hok), (completed_gpu h Hok), final_queue.
    split; [exists 6%nat, 7%nat, 8%nat; exact Hr|].
    repeat split; assumption.
Qed.

Lemma exactly_one_draw_witness :
  outcome ideal_host = Ok tt
  /\ length (filter is_Draw (calls ideal_host)) = 1%nat
  /\ length (filter is_BeginRenderPass (calls ideal_host)) = 1%nat
  /\ length (filter is_Submit (calls ideal_host)) = 1%nat
  /\ length (queue (final_gpu ideal_host)) = 1%nat.
Proof.
  split; [vm_compute; reflexivity|].
  destruct (exactly_one_draw ideal_host) as (_ & H).
  assert (Hok : outcome ideal_host = Ok tt) by (vm_compute; reflexivity).
  destruct (H Hok) as (_ & H'). exact H'.
Defined.

Lemma uniform_buffer_ideal :
  buffer_named (gpu final_state) "Grid Uniforms"
  = Some (3%nat,
          {| buf_label := "Grid Uniforms"; buf_size := 8;
             buf_usage := [UNIFORM; COPY_DST];
             buf_data := [WF32 (F32.of_Z 32); WF32 (F32.of_Z 32)] |})
  /\ filter (writes_buffer 3%nat) full_calls = [WriteBuffer 3%nat 0 (F32Array uniformArray)].
Proof. split; vm_compute; reflexivity. Qed.

Lemma final_bindings :
  bindings (gpu final_state) the_draw
  = Some {| bound_vertices := vertices; bound_grid := grid32;
            bound_cellState := default [] cellStateArray |}.
Proof. vm_compute. reflexivity. Qed.

Lemma shade_grid (bs : Bindings) (i v : nat) (out : VertexOutput) :
  shade bs i v = Some out ->
  exists pos, vertex_pos (bound_vertices bs) v = Some pos
    /\ out = vertexMain (bound_grid bs) (bound_cellState bs)
               {| vi_pos := pos; vi_instance := Z.of_nat i |}.
Proof.
  unfold shade. destruct (vertex_pos (bound_vertices bs) v) as [pos|]; simpl;
    [|discriminate].
  intros [= <-]. exists pos. split; reflexivity.
Qed.

(** C6.  The uniform array is the two binary32 numbers [32, 32], 8 bytes.
    In a completed run the 'Grid Uniforms' buffer has size 8, holds these
    two numbers, and was written by one [writeBuffer] call; the draw call in
    the queue binds it as [grid], so the vertex shader runs with
    [grid = (32, 32)] for every instance and every vertex. *)
Theorem uniform_is_grid_size (h : Host) :
  outcome h = Ok tt ->
  uniformArray = [F32.of_Z GRID_SIZE; F32.of_Z GRID_SIZE]
  /\ F32.of_Z GRID_SIZE = F32.of_Z 32
  /\ byteLength (F32Array uniformArray) = 8
  /\ (exists b buf,
        buffer_named (final_gpu h) "Grid Uniforms" = Some (b, buf)
        /\ buf_size buf = 8
        /\ buf_data buf = [WF32 (F32.of_Z 32); WF32 (F32.of_Z 32)]
        /\ filter (writes_buffer b) (calls h)
           = [WriteBuffer b 0 (F32Array uniformArray)])
  /\ (forall dc, dc ∈ queue (final_gpu h) ->
        exists bs,
          bindings (final_gpu h) dc = Some bs
          /\ bound_grid bs = grid32
          /\ forall (i v : nat) (out : VertexOutput),
               shade bs i v = Some out ->
               exists pos,
                 out = vertexMain grid32 (bound_cellState bs)
                         {| vi_pos := pos; vi_instance := Z.of_nat i |}).
Proof.
  intros Hok. rewrite (completed_gpu h Hok), (completed_calls h Hok).
  split; [vm_compute; reflexivity|]. split; [reflexivity|].
  split; [vm_compute; reflexivity|].
  destruct uniform_buffer_ideal as (Hb & Hw).
  split.
  - eexists _, _. split; [exact Hb|]. split; [reflexivity|].
    split; [reflexivity|]. exact Hw.
  - intros dc Hdc. rewrite final_queue in Hdc.
    apply list_elem_of_singleton in Hdc as ->.
    eexists. split; [exact final_bindings|]. split; [reflexivity|].
    intros i v out Hout. destruct (shade_grid _ _ _ _ Hout) as (pos & _ & ->).
    exists pos. reflexivity.
Qed.

Lemma uniform_is_grid_size_witness :
  outcome ideal_host = Ok tt
  /\ uniformArray = [F32.of_Z GRID_SIZE; F32.of_Z GRID_SIZE]
  /\ byteLength (F32Array uniformArray) = 8.
Proof.
  split; [vm_compute; reflexivity|].
  assert (Hok : outcome ideal_host = Ok tt) by (vm_compute; reflexivity).
  destruct (uniform_is_grid_size ideal_host Hok) as (H1 & _ & H2 & _).
  split; [exact H1 | exact H2].
Defined.

Lemma holds_from_spec cs b buf n :
  holds_from cs b buf n = true ->
  forall k, (n < k)%nat -> buffers (gpu_after (take k cs)) !! b = Some buf.
Proof.
  unfold holds_from. intros H k Hk.
  apply andb_prop in H as [Hall Hpre]. apply bool_decide_eq_true_1 in Hall.
  destruct (decide (k <= length cs)%nat) as [Hle|Hgt].
  - rewrite forallb_forall in Hpre.
    assert (Hin : In k (seq (S n) (length cs - n))) by (apply in_seq; lia).
    specialize (Hpre k Hin). apply bool_decide_eq_true_1 in Hpre. exact Hpre.
  - rewrite take_ge by lia. exact Hall.
Qed.

Lemma uploads_ok :
  forallb (upload_ok full_calls (gpu final_state)) uploads = true
  /\ (map_to_list (buffers (gpu final_state))).*1 = rev uploads.*1
  /\ gpu final_state = gpu_after full_calls
  /\ length (filter is_CreateBuffer full_calls) = 3%nat
  /\ size (buffers (gpu final_state)) = 3%nat.
Proof. repeat split; vm_compute; reflexivity. Qed.

(** C7.  In a completed run three buffers exist, one per [createBuffer]
    call.  Each was created by one call and written by one [writeBuffer]
    call, which filled it whole; after that call, every later state of the
    run holds the buffer with the same size and contents, to the end. *)
Theorem buffers_created_and_written_once (h : Host) :
  outcome h = Ok tt ->
  final_gpu h = gpu_after (calls h)
  /\ length (filter is_CreateBuffer (calls h)) = 3%nat
  /\ size (buffers (final_gpu h)) = 3%nat
  /\ forall b buf,
       buffers (final_gpu h) !! b = Some buf ->
       length (filter (creates_buffer b) (calls h)) = 1%nat
       /\ exists n data,
            calls h !! n = Some (WriteBuffer b 0 data)
            /\ filter (writes_buffer b) (calls h) = [WriteBuffer b 0 data]
            /\ buf_size buf = byteLength data
            /\ buf_data buf = words data
            /\ forall k, (n < k)%nat ->
                 buffers (gpu_after (take k (calls h))) !! b = Some buf.
Proof.
  intros Hok. rewrite (completed_gpu h Hok), (completed_calls h Hok).
  destruct uploads_ok as (Hup & Hdom & Hg & Hn & Hsize).
  split; [exact Hg|]. split; [exact Hn|]. split; [exact Hsize|].
  intros b buf Hb.
  assert (Hin : b ∈ (map_to_list (buffers (gpu final_state))).*1).
  { apply list_elem_of_fmap. exists (b, buf). split; [reflexivity|].
    apply elem_of_map_to_list. exact Hb. }
  rewrite Hdom in Hin. apply list_elem_of_In in Hin.
  apply (proj2 (in_rev _ _)) in Hin.
  apply in_map_iff in Hin as ([b' [n data]] & Hb' & Hin). simpl in Hb'. subst b'.
  rewrite forallb_forall in Hup. specialize (Hup _ Hin).
  unfold upload_ok in Hup. rewrite Hb in Hup.
  repeat (apply andb_prop in Hup as [Hup ?]).
  split; [apply Nat.eqb_eq; assumption|].
  exists n, data.
  split; [eapply bool_decide_eq_true_1; eassumption|].
  split; [eapply bool_decide_eq_true_1; eassumption|].
  split; [apply Z.eqb_eq; assumption|].
  split; [eapply bool_decide_eq_true_1; eassumption|].
  apply holds_from_spec. assumption.
Qed.

Lemma buffers_created_and_written_once_witness :
  outcome ideal_host = Ok tt
  /\ length (filter is_CreateBuffer (calls ideal_host)) = 3%nat
  /\ size (buffers (final_gpu ideal_host)) = 3%nat.
Proof.
  split; [vm_compute; reflexivity|].
  assert (Hok : outcome ideal_host = Ok tt) by (vm_compute; reflexivity).
  destruct (buffers_created_and_written_once ideal_host Hok) as (_ & H1 & H2 & _).
  split; [exact H1 | exact H2].
Defined.

Lemma vertices_length : length vertices = 12%nat.
Proof. reflexivity. Qed.

(** C8.  [createSquareVertices] returns 12 numbers, so the vertex count
    [vertices.length / 2] is 6; the instance count is 32 * 32 = 1024, not
    16.  In a completed run the one draw call is made with these counts, and
    the draw call in the queue carries them. *)
Theorem draw_counts (h : Host) :
  outcome h = Ok tt ->
  (forall size, length (createSquareVertices size) = 12%nat)
  /\ length vertices = 12%nat
  /\ F64.to_GPUSize32
       (F64.div (F64.of_Z (Z.of_nat (length vertices))) (F64.of_Z 2)) = Some 6
  /\ F64.to_GPUSize32 (F64.of_Z (GRID_SIZE * GRID_SIZE)) = Some 1024
  /\ GRID_SIZE * GRID_SIZE = 1024
  /\ 1024 <> 16
  /\ (exists pass, filter is_Draw (calls h) = [Draw pass 6 1024])
  /\ map (fun dc => (dc_vertexCount dc, dc_instanceCount dc)) (queue (final_gpu h))
     = [(6, 1024)].
Proof.
  intros Hok. rewrite (completed_gpu h Hok), (completed_calls h Hok), final_queue.
  split; [intros size; reflexivity|].
  split; [reflexivity|]. split; [reflexivity|]. split; [reflexivity|].
  split; [reflexivity|]. split; [discriminate|].
  split; [exists 7%nat; vm_compute; reflexivity | reflexivity].
Qed.

Lemma draw_counts_witness :
  outcome ideal_host = Ok tt
  /\ (exists pass, filter is_Draw (calls ideal_host) = [Draw pass 6 1024])
  /\ map (fun dc => (dc_vertexCount dc, dc_instanceCount dc))
       (queue (final_gpu ideal_host))
     = [(6, 1024)].
Proof.
  split; [vm_compute; reflexivity|].
  assert (Hok : outcome ideal_host = Ok tt) by (vm_compute; reflexivity).
  destruct (draw_counts ideal_host Hok) as (_ & _ & _ & _ & _ & _ & H1 & H2).
  split; [exact H1 | exact H2].
Defined.

(** * Further properties of the code *)

(** ** The marking loop on any array *)

(** X1.  On any array and from any start index, the marking loop ends
    within [length a - i] turns, keeps the length, sets to 1 exactly the
    entries at [i], [i + 3], [i + 6], ... and leaves every other entry as
    it was. *)
Theorem marking_loop_any_array (fuel i : nat) (a : Uint32Array) :
  (length a - i <= fuel)%nat ->
  exists a' : Uint32Array,
    mark_every_third fuel i a = Some a'
    /\ length a' = length a
    /\ (forall j : nat, (i <= j < length a)%nat -> ((j - i) mod 3 = 0)%nat ->
          a' !! j = Some 1)
    /\ (forall j : nat, (j < i)%nat \/ ((j - i) mod 3 <> 0)%nat ->
          a' !! j = a !! j).
Proof.
  intros Hfuel.
  destruct (mark_every_third_spec fuel i a Hfuel) as (a' & Hrun & Hlen & Hget).
  exists a'. split; [exact Hrun|]. split; [exact Hlen|]. split.
  - intros j Hj Hm. rewrite Hget. case_decide as H; [reflexivity|].
    exfalso. apply H. lia.
  - intros j Hj. rewrite Hget. case_decide as H; [|reflexivity].
    exfalso. destruct H as (H1 & H2 & H3). destruct Hj as [Hj|Hj]; [lia | exact (Hj H2)].
Qed.

Lemma marking_loop_any_array_witness :
  (length [5; 6; 7; 8; 9] - 1 <= 4)%nat
  /\ mark_every_third 4 1 [5; 6; 7; 8; 9] = Some [5; 1; 7; 8; 1].
Proof.
  split; [simpl; lia|].
  destruct (marking_loop_any_array 4 1 [5; 6; 7; 8; 9]) as (a' & Hrun & _);
    [simpl; lia|].
  reflexivity.
Defined.


(** The marked array, entry by entry. *)
Lemma marked_zero_array (n : nat) :
  mark_every_third n 0 (replicate n 0)
  = Some (map (fun j : nat => if (j mod 3 =? 0)%nat then 1 else 0) (seq 0 n)).
Proof.
  destruct (mark_every_third_spec n 0 (replicate n 0)) as (a' & Hrun & Hlen & Hget).
  { rewrite length_replicate. lia. }
  rewrite Hrun. f_equal. rewrite length_replicate in Hlen, Hget.
  apply list_eq. intros j. rewrite Hget, Nat.sub_0_r.
  rewrite list_lookup_fmap.
  destruct (decide (j < n)%nat) as [Hj|Hj].
  - rewrite lookup_seq_lt by exact Hj. cbn [fmap option_fmap option_map Nat.add].
    destruct (j mod 3 =? 0)%nat eqn:E.
    + apply Nat.eqb_eq in E. case_decide as H; [reflexivity|]. exfalso. apply H. lia.
    + apply Nat.eqb_neq in E. case_decide as H; [lia|].
      apply lookup_replicate_2. exact Hj.
  - rewrite lookup_seq_ge by lia. cbn [fmap option_fmap option_map].
    case_decide as H; [lia|]. apply lookup_replicate_None. lia.
Qed.

Lemma third_step (n : nat) :
  ((S n + 2) / 3 = (n + 2) / 3 + (if (n mod 3 =? 0) then 1 else 0))%nat.
Proof.
  set (x := (S n + 2)%nat). set (y := (n + 2)%nat).
  pose proof (Nat.div_mod_eq n 3) as Hn.
  pose proof (Nat.mod_upper_bound n 3 ltac:(lia)) as Hb.
  pose proof (Nat.div_mod_eq y 3) as H2.
  pose proof (Nat.mod_upper_bound y 3 ltac:(lia)) as Hb2.
  pose proof (Nat.div_mod_eq x 3) as H3.
  pose proof (Nat.mod_upper_bound x 3 ltac:(lia)) as Hb3.
  assert (Hx : x = S y) by (subst x y; lia).
  assert (Hy : y = (n + 2)%nat) by reflexivity.
  clearbody x y.
  destruct (n mod 3 =? 0)%nat eqn:E.
  - apply Nat.eqb_eq in E. lia.
  - apply Nat.eqb_neq in E. lia.
Qed.

Lemma count_every_third (n : nat) :
  active_count (map (fun j : nat => if (j mod 3 =? 0)%nat then 1 else 0) (seq 0 n))
  = ((n + 2) / 3)%nat.
Proof.
  unfold active_count.
  induction n as [|n IH].
  - reflexivity.
  - rewrite seq_S, map_app, filter_app, length_app, IH, third_step.
    f_equal. cbn [map]. change (0 + n)%nat with n.
    destruct (n mod 3 =? 0)%nat.
    + rewrite filter_cons_True by reflexivity. reflexivity.
    + rewrite filter_cons_False by discriminate. reflexivity.
Qed.

(** X2.  Marking a zeroed array of any length [n] sets one entry in three,
    [(n + 2) / 3] of them in all; of the 1024 cells of the grid, 342 are
    active. *)
Theorem marked_count :
  (forall n : nat,
      exists a : Uint32Array,
        mark_every_third n 0 (new_Uint32Array (Z.of_nat n)) = Some a
        /\ length a = n
        /\ active_count a = ((n + 2) / 3)%nat)
  /\ (exists a : Uint32Array, cellStateArray = Some a /\ active_count a = 342%nat).
Proof.
  assert (H : forall n : nat,
      exists a : Uint32Array,
        mark_every_third n 0 (new_Uint32Array (Z.of_nat n)) = Some a
        /\ length a = n
        /\ active_count a = ((n + 2) / 3)%nat).
  { intros n. unfold new_Uint32Array. rewrite Nat2Z.id.
    eexists. split; [apply marked_zero_array|].
    split; [rewrite length_map, length_seq; reflexivity|].
    apply count_every_third. }
  split; [exact H|].
  destruct (H 1024%nat) as (a & Ha & _ & Hc).
  exists a. split; [exact Ha | exact Hc].
Qed.

(** ** The square, for any size *)

(** Rounding to binary32 commutes with negation. *)
Lemma round_neg (x : spec_float) : F32.round (F64.neg x) = SFopp (F32.round x).
Proof.
  destruct x as [s|s| |s m e]; try reflexivity.
  unfold F32.round, F64.neg, SFopp at 1, binary_round, binary_round_aux.
  destruct (shl_align m e _) as [mz ez].
  destruct (shr_fexp _ _ _ _ _) as [mrs e'].
  destruct (shr_fexp _ _ _ _ _) as [mrs' e''].
  destruct (shr_m mrs') as [|p|p]; try reflexivity.
  destruct (e'' <=? _); reflexivity.
Qed.

(** X3.  Whatever the size, [createSquareVertices] returns twelve numbers,
    48 bytes: the corners (-r, -r), (r, -r), (r, r) and (-r, -r), (r, r),
    (-r, r) of the square of half side [r], the size rounded to binary32.
    The two triangles share the diagonal from (-r, -r) to (r, r), and six
    vertices of stride 8 fill the array exactly. *)
Theorem square_vertices_any_size (size : spec_float) :
  let r := F32.round size in
  let vs := createSquareVertices size in
  vs = square_of r
  /\ length vs = 12%nat
  /\ byteLength (F32Array vs) = 6 * arrayStride
  /\ vertex_pos vs 0 = Some (Vec2f (SFopp r) (SFopp r))
  /\ vertex_pos vs 1 = Some (Vec2f r (SFopp r))
  /\ vertex_pos vs 2 = Some (Vec2f r r)
  /\ vertex_pos vs 3 = vertex_pos vs 0
  /\ vertex_pos vs 4 = vertex_pos vs 2
  /\ vertex_pos vs 5 = Some (Vec2f (SFopp r) r)
  /\ vertex_pos vs 6 = None.
Proof.
  intros r vs.
  assert (Hvs : vs = square_of r).
  { subst vs r. unfold createSquareVertices, new_Float32Array, square_of.
    cbn [map]. rewrite !round_neg. reflexivity. }
  rewrite Hvs. repeat split; reflexivity.
Qed.

(** ** Uploading an array *)

Lemma words_length (data : TypedArray) :
  length (words data) = Z.to_nat (byteLength data / 4).
Proof.
  unfold byteLength. rewrite Z.mul_comm, Z.div_mul by lia.
  destruct data as [a|a]; simpl; rewrite length_map, Nat2Z.id; reflexivity.
Qed.

Lemma overwrite_all {A} (new old : list A) :
  length old = length new -> overwrite 0 new old = new.
Proof.
  intros H. unfold overwrite. rewrite take_0, Nat.sub_0_r, H, firstn_all.
  rewrite drop_ge by (simpl; lia). simpl. apply app_nil_r.
Qed.

Lemma read_back_f32 (a : Float32Array) : mapM word_f32 (map WF32 a) = Some a.
Proof. induction a as [|x a IH]; [reflexivity|]. simpl. rewrite IH. reflexivity. Qed.

Lemma read_back_u32 (a : Uint32Array) : mapM word_u32 (map WU32 a) = Some a.
Proof. induction a as [|x a IH]; [reflexivity|]. simpl. rewrite IH. reflexivity. Qed.

Lemma asked_log (c : Call) (s : State) (g : Gpu) (n : handle) :
  is_graphics_call c = true ->
  asked {| trace := c :: trace s; next_handle := n; gpu := g |} = S (asked s).
Proof.
  intros Hc. unfold asked. cbn [trace].
  rewrite filter_cons_True by (rewrite Hc; exact I). reflexivity.
Qed.

(** X4.  Creating a buffer for an array and writing the array to it, as the
    script does for its vertices: when the two calls succeed, the new buffer
    has the array's byte length as its size, holds exactly the array, and
    reads back as the array; the write is valid for every array (also the
    empty one), the two calls are the only ones added to the trace, and no
    other buffer changes. *)
Theorem upload_round_trip (data : TypedArray) (label : string) (h : Host) (s : State) :
  api_ok h (asked s) = true ->
  api_ok h (S (asked s)) = true ->
  let b := next_handle s in
  exists s' : State,
    upload data label h s = (Ok b, s')
    /\ buffers (gpu s') !! b
       = Some {| buf_label := label; buf_size := byteLength data;
                 buf_usage := [VERTEX; COPY_DST]; buf_data := words data |}
    /\ match data with
       | F32Array a => read_f32 (gpu s') b = Some a
       | U32Array a => read_u32 (gpu s') b = Some a
       end
    /\ trace s'
       = WriteBuffer b 0 data
         :: CreateBuffer b label (byteLength data) [VERTEX; COPY_DST] :: trace s
    /\ next_handle s' = S b
    /\ forall b' : handle, b' <> b -> buffers (gpu s') !! b' = buffers (gpu s) !! b'.
Proof.
  intros H1 H2 b.
  set (buf0 := {| buf_label := label; buf_size := byteLength data;
                  buf_usage := [VERTEX; COPY_DST];
                  buf_data := replicate (Z.to_nat (byteLength data / 4)) (WU32 0) |}).
  set (s1 := {| trace := CreateBuffer b label (byteLength data) [VERTEX; COPY_DST]
                         :: trace s;
                next_handle := S b;
                gpu := set_buffers (gpu s) (<[b := buf0]> (buffers (gpu s))) |}).
  assert (Hcreate : createGpuBuffer data label h s = (Ok b, s1)).
  { unfold createGpuBuffer, createBuffer, fresh, gpu_call, emit, mbind, M_bind,
      mret, M_ret, asked. cbn [trace next_handle gpu fst snd].
    fold (asked s). rewrite H1. reflexivity. }
  assert (Hvalid : valid_write (gpu s1) b 0 data = true).
  { unfold valid_write, s1. cbn [gpu set_buffers buffers].
    rewrite lookup_insert_eq. cbn [buf_usage buf_size buf0].
    rewrite Z.add_0_l, !Z.leb_refl. reflexivity. }
  assert (Hasked : asked s1 = S (asked s)) by (apply asked_log; reflexivity).
  set (s2 := {| trace := WriteBuffer b 0 data :: trace s1;
                next_handle := S b;
                gpu := perform (WriteBuffer b 0 data) (gpu s1) |}).
  assert (Hrun : upload data label h s = (Ok b, s2)).
  { unfold upload. unfold mbind at 1, M_bind at 1. rewrite Hcreate.
    unfold writeBuffer, get_gpu, gpu_call, emit, mbind, M_bind, mret, M_ret.
    rewrite Hvalid, Hasked, H2. reflexivity. }
  assert (Hbuf : buffers (gpu s2) !! b
                 = Some {| buf_label := label; buf_size := byteLength data;
                           buf_usage := [VERTEX; COPY_DST]; buf_data := words data |}).
  { unfold s2, s1. cbn [gpu perform set_buffers buffers].
    rewrite lookup_alter_eq, lookup_insert_eq. cbn [fmap option_fmap option_map].
    unfold write_words. cbn [buf_label buf_size buf_usage buf_data buf0].
    change (Z.to_nat (0 / 4)) with 0%nat.
    rewrite overwrite_all; [reflexivity|].
    rewrite length_replicate, words_length. reflexivity. }
  exists s2. split; [exact Hrun|]. split; [exact Hbuf|].
  split.
  { destruct data as [a|a]; unfold read_f32, read_u32; rewrite Hbuf;
      cbn [mbind option_bind buf_data words]; [apply read_back_f32 | apply read_back_u32]. }
  split; [reflexivity|]. split; [reflexivity|].
  intros b' Hne. unfold s2, s1. cbn [gpu perform set_buffers buffers].
  rewrite lookup_alter_ne by congruence. rewrite lookup_insert_ne by congruence.
  reflexivity.
Qed.

Lemma upload_round_trip_witness :
  api_ok ideal_host (asked initial) = true
  /\ api_ok ideal_host (S (asked initial)) = true
  /\ exists s' : State,
       upload (F32Array vertices) "Cell vertices" ideal_host initial = (Ok 0%nat, s')
       /\ read_f32 (gpu s') 0%nat = Some vertices.
Proof.
  split; [reflexivity|]. split; [reflexivity|].
  destruct (upload_round_trip (F32Array vertices) "Cell vertices" ideal_host initial)
    as (s' & Hrun & _ & Hread & _); [reflexivity | reflexivity |].
  exists s'. split; [exact Hrun | exact Hread].
Defined.

(** ** The frame: where the cells are drawn and in which colour *)

Lemma Qlt_bool_lt (a b : Q) : Qlt_bool a b = true -> (a < b)%Q.
Proof.
  unfold Qlt_bool. intros H. apply negb_true_iff in H.
  apply Qnot_le_lt. intros Hle. apply Qle_bool_iff in Hle. congruence.
Qed.

(** A test that holds of every instance number below 1024 holds of every
    instance of the grid. *)
Lemma every_instance (f : nat -> bool) (i : Z) :
  forallb f (seq 0 1024) = true ->
  0 <= i < GRID_SIZE * GRID_SIZE ->
  f (Z.to_nat i) = true /\ Z.of_nat (Z.to_nat i) = i.
Proof.
  intros H Hi. rewrite forallb_forall in H. split.
  - apply H, in_seq. unfold GRID_SIZE in Hi. lia.
  - apply Z2Nat.id. lia.
Qed.

Lemma column_row (i j : Z) :
  column i = column j -> row i = row j -> i = j.
Proof.
  unfold column, row, GRID_SIZE. intros Hc Hr.
  rewrite (Z.div_mod i 32), (Z.div_mod j 32) by lia. congruence.
Qed.

Lemma column_row_range (i : Z) :
  0 <= i < GRID_SIZE * GRID_SIZE ->
  0 <= column i < GRID_SIZE /\ 0 <= row i < GRID_SIZE.
Proof.
  unfold column, row, GRID_SIZE. intros Hi. split.
  - apply Z.mod_pos_bound. lia.
  - split; [apply Z.div_pos; lia | apply Z.div_lt_upper_bound; lia].
Qed.

Lemma cells_exact : forallb cell_exact (seq 0 1024) = true.
Proof. vm_compute. reflexivity. Qed.

Lemma cell_of_exact (i : Z) :
  0 <= i < GRID_SIZE * GRID_SIZE ->
  (F32.to_Q (v2x (cell_of grid32 i)) == inject_Z (column i))%Q
  /\ (F32.to_Q (v2y (cell_of grid32 i)) == inject_Z (row i))%Q.
Proof.
  intros Hi. destruct (every_instance cell_exact i cells_exact Hi) as (H & Hid).
  unfold cell_exact in H. rewrite Hid in H.
  apply andb_prop in H as [H Hy]. apply andb_prop in H as [_ Hx].
  split; apply Qeq_bool_iff; assumption.
Qed.

(** X5.  Instances fill the grid row by row: instance [i] of the 1024 has
    the cell of column [i mod 32] and row [i / 32], exactly, and no two
    instances share a cell. *)
Theorem grid_cells_row_major (i j : Z) :
  0 <= i < GRID_SIZE * GRID_SIZE ->
  0 <= j < GRID_SIZE * GRID_SIZE ->
  cell_of grid32 i = Vec2f (F32.of_Z (column i)) (F32.of_Z (row i))
  /\ (F32.to_Q (v2x (cell_of grid32 i)) == inject_Z (column i))%Q
  /\ (F32.to_Q (v2y (cell_of grid32 i)) == inject_Z (row i))%Q
  /\ 0 <= column i < GRID_SIZE /\ 0 <= row i < GRID_SIZE
  /\ (cell_of grid32 i = cell_of grid32 j -> i = j).
Proof.
  intros Hi Hj.
  destruct (cell_of_exact i Hi) as (Hxi & Hyi).
  destruct (cell_of_exact j Hj) as (Hxj & Hyj).
  split; [apply cell_of_grid32; unfold GRID_SIZE in Hi; lia|].
  split; [exact Hxi|]. split; [exact Hyi|].
  split; [apply column_row_range, Hi|]. split; [apply column_row_range, Hi|].
  intros Heq. rewrite Heq in Hxi, Hyi.
  apply column_row.
  - apply inject_Z_injective. rewrite <- Hxi, <- Hxj. reflexivity.
  - apply inject_Z_injective. rewrite <- Hyi, <- Hyj. reflexivity.
Qed.

Lemma grid_cells_row_major_witness :
  0 <= 37 < GRID_SIZE * GRID_SIZE
  /\ cell_of grid32 37 = Vec2f (F32.of_Z 5) (F32.of_Z 1)
  /\ (cell_of grid32 37 = cell_of grid32 37 -> 37 = 37).
Proof.
  split; [unfold GRID_SIZE; lia|].
  destruct (grid_cells_row_major 37 37) as (H1 & _ & _ & _ & _ & H2);
    [unfold GRID_SIZE; lia | unfold GRID_SIZE; lia |].
  split; [exact H1 | exact H2].
Defined.

Lemma centres_exact : forallb centre_exact (seq 0 1024) = true.
Proof. vm_compute. reflexivity. Qed.

(** X6.  The point an inactive instance of the grid collapses to is the
    exact middle of its cell: ((2 column + 1) / 32 - 1, (2 row + 1) / 32 - 1)
    in clip space. *)
Theorem inactive_point_is_cell_centre (i : Z) :
  0 <= i < GRID_SIZE * GRID_SIZE ->
  let pt := collapse_point grid32 i in
  F32.is_finite (v2x pt) = true /\ F32.is_finite (v2y pt) = true
  /\ (F32.to_Q (v2x pt) == cell_centre (column i))%Q
  /\ (F32.to_Q (v2y pt) == cell_centre (row i))%Q
  /\ (cell_edge (column i) < F32.to_Q (v2x pt) < cell_edge (column i + 1))%Q
  /\ (cell_edge (row i) < F32.to_Q (v2y pt) < cell_edge (row i + 1))%Q.
Proof.
  intros Hi pt. subst pt.
  destruct (every_instance centre_exact i centres_exact Hi) as (H & Hid).
  unfold centre_exact in H. rewrite Hid in H.
  apply andb_prop in H as [H Hy]. apply andb_prop in H as [Hf Hx].
  apply andb_prop in Hf as [Hfx Hfy].
  apply Qeq_bool_iff in Hx, Hy.
  split; [exact Hfx|]. split; [exact Hfy|]. split; [exact Hx|]. split; [exact Hy|].
  rewrite Hx, Hy. unfold cell_edge, cell_centre, Qlt, Qminus, Qplus, Qopp. simpl.
  lia.
Qed.

Lemma inactive_point_is_cell_centre_witness :
  0 <= 37 < GRID_SIZE * GRID_SIZE
  /\ (F32.to_Q (v2x (collapse_point grid32 37)) == cell_centre 5)%Q
  /\ (F32.to_Q (v2y (collapse_point grid32 37)) == cell_centre 1)%Q.
Proof.
  split; [unfold GRID_SIZE; lia|].
  destruct (inactive_point_is_cell_centre 37) as (_ & _ & Hx & Hy & _);
    [unfold GRID_SIZE; lia|].
  split; [exact Hx | exact Hy].
Defined.

(** The vertex shader reads the cell-state array at its instance only. *)
Lemma vertexMain_flag (grid : vec2f) (cs cs' : Uint32Array) (p : vec2f) (i : Z) :
  Wgsl.index cs i = Wgsl.index cs' i ->
  vertexMain grid cs {| vi_pos := p; vi_instance := i |}
  = vertexMain grid cs' {| vi_pos := p; vi_instance := i |}.
Proof.
  intros H. unfold vertexMain. cbn [vi_pos vi_instance]. rewrite H. reflexivity.
Qed.

Lemma index_replicate (n : nat) :
  Wgsl.index (replicate (S n) 1) (Z.of_nat n) = 1.
Proof.
  unfold Wgsl.index. rewrite Nat2Z.id, lookup_replicate_2 by lia. reflexivity.
Qed.

Lemma strictly_inside_spec (k : Z) (x : F32.t) :
  strictly_inside k x = true ->
  F32.is_finite x = true
  /\ (cell_edge k < F32.to_Q x < cell_edge (k + 1))%Q.
Proof.
  unfold strictly_inside. intros H.
  apply andb_prop in H as [H Hhi]. apply andb_prop in H as [Hf Hlo].
  split; [exact Hf|]. split; apply Qlt_bool_lt; assumption.
Qed.

Lemma actives_inside : forallb active_inside (seq 0 1024) = true.
Proof. vm_compute. reflexivity. Qed.

Lemma corner_vertex (v : nat) :
  (v < 6)%nat -> vertex_pos vertices v = Some (corner v).
Proof.
  intros Hv. do 6 (destruct v as [|v]; [reflexivity|]). lia.
Qed.

(** X7.  Every vertex of an active instance of the grid lies strictly
    inside the instance's own cell, between the cell's edges in both
    directions, at depth 0 with w = 1: active squares stay apart from one
    another and inside clip space. *)
Theorem active_square_inside_cell (i : Z) (v : nat) (cellState : Uint32Array) :
  0 <= i < GRID_SIZE * GRID_SIZE ->
  (v < 6)%nat ->
  Wgsl.index cellState i = 1 ->
  exists p : vec2f,
    vertex_pos vertices v = Some p
    /\ let out := vo_pos (vertexMain grid32 cellState
                            {| vi_pos := p; vi_instance := i |}) in
       F32.is_finite (v4x out) = true /\ F32.is_finite (v4y out) = true
       /\ (cell_edge (column i) < F32.to_Q (v4x out) < cell_edge (column i + 1))%Q
       /\ (cell_edge (row i) < F32.to_Q (v4y out) < cell_edge (row i + 1))%Q
       /\ (-1 < F32.to_Q (v4x out) < 1)%Q
       /\ (-1 < F32.to_Q (v4y out) < 1)%Q
       /\ v4z out = F32.of_Z 0 /\ v4w out = F32.of_Z 1.
Proof.
  intros Hi Hv Hflag. exists (corner v). split; [apply corner_vertex, Hv|].
  destruct (every_instance active_inside i actives_inside Hi) as (H & Hid).
  unfold active_inside in H. rewrite forallb_forall in H.
  assert (Hin : In v (seq 0 6)) by (apply in_seq; lia).
  specialize (H v Hin). rewrite Hid in H.
  rewrite (vertexMain_flag grid32 cellState (replicate (S (Z.to_nat i)) 1)).
  2:{ rewrite Hflag. rewrite <- Hid at 2. symmetry. apply index_replicate. }
  cbv zeta.
  apply andb_prop in H as [H Hw]. apply andb_prop in H as [H Hz].
  apply andb_prop in H as [Hx Hy].
  apply strictly_inside_spec in Hx as (Hfx & Hx1 & Hx2).
  apply strictly_inside_spec in Hy as (Hfy & Hy1 & Hy2).
  apply bool_decide_eq_true_1 in Hz, Hw.
  destruct (column_row_range i Hi) as (Hc & Hr).
  assert (Hlow : forall k, 0 <= k -> (-1 <= cell_edge k)%Q).
  { intros k Hk. unfold cell_edge, Qle, Qminus, Qplus, Qopp. simpl. lia. }
  assert (Hhigh : forall k, k < GRID_SIZE -> (cell_edge (k + 1) <= 1)%Q).
  { intros k Hk. unfold GRID_SIZE in Hk.
    unfold cell_edge, Qle, Qminus, Qplus, Qopp. simpl. lia. }
  split; [exact Hfx|]. split; [exact Hfy|].
  split; [split; assumption|]. split; [split; assumption|].
  split.
  { split; [eapply Qle_lt_trans; [apply Hlow|exact Hx1]; lia
           | eapply Qlt_le_trans; [exact Hx2|apply Hhigh]; lia]. }
  split.
  { split; [eapply Qle_lt_trans; [apply Hlow|exact Hy1]; lia
           | eapply Qlt_le_trans; [exact Hy2|apply Hhigh]; lia]. }
  split; assumption.
Qed.

Lemma active_square_inside_cell_witness :
  0 <= 33 < GRID_SIZE * GRID_SIZE /\ (2 < 6)%nat
  /\ Wgsl.index (replicate 34 1) 33 = 1
  /\ exists p : vec2f,
       vertex_pos vertices 2 = Some p
       /\ (cell_edge 1
           < F32.to_Q (v4x (vo_pos (vertexMain grid32 (replicate 34 1%Z)
                                     {| vi_pos := p; vi_instance := 33%Z |})))
           < cell_edge 2)%Q.
Proof.
  split; [unfold GRID_SIZE; lia|]. split; [lia|]. split; [reflexivity|].
  destruct (active_square_inside_cell 33 2 (replicate 34 1))
    as (p & Hp & _ & _ & Hx & _); [unfold GRID_SIZE; lia | lia | reflexivity |].
  exists p. split; [exact Hp | exact Hx].
Defined.

Lemma colors_exact : forallb color_exact (seq 0 1024) = true.
Proof. vm_compute. reflexivity. Qed.

Lemma color_of_instance (i : Z) (cellState : Uint32Array) (pos : vec2f) :
  0 <= i < GRID_SIZE * GRID_SIZE ->
  let col := instance_color grid32 cellState pos i in
  (F32.to_Q (v4x col) == column i # 32)%Q
  /\ (F32.to_Q (v4y col) == row i # 32)%Q
  /\ (F32.to_Q (v4z col) == 1 - (column i # 32))%Q
  /\ (F32.to_Q (v4w col) == 1)%Q
  /\ F32.is_finite (v4x col) = true /\ F32.is_finite (v4y col) = true
  /\ F32.is_finite (v4z col) = true /\ F32.is_finite (v4w col) = true.
Proof.
  intros Hi col. subst col. rewrite instance_color_cell.
  destruct (every_instance color_exact i colors_exact Hi) as (H & Hid).
  unfold color_exact in H. rewrite Hid in H.
  apply andb_prop in H as [H Ha]. apply andb_prop in H as [H Hb].
  apply andb_prop in H as [H Hg]. apply andb_prop in H as [H Hr].
  apply andb_prop in H as [Hf1 Hf2].
  apply andb_prop in Hf1 as [? ?]. apply andb_prop in Hf2 as [? ?].
  apply Qeq_bool_iff in Hr, Hg, Hb, Ha.
  repeat split; assumption.
Qed.

(** X8.  The colour of instance [i] of the grid is exactly
    (column / 32, row / 32, 1 - column / 32, 1): red grows with the column,
    green with the row, every channel lies between 0 and 1, and no two
    instances have the same colour. *)
Theorem instance_colors_exact (i j : Z) (cellState : Uint32Array) (pos : vec2f) :
  0 <= i < GRID_SIZE * GRID_SIZE ->
  0 <= j < GRID_SIZE * GRID_SIZE ->
  let col := instance_color grid32 cellState pos i in
  (F32.to_Q (v4x col) == column i # 32)%Q
  /\ (F32.to_Q (v4y col) == row i # 32)%Q
  /\ (F32.to_Q (v4z col) == 1 - (column i # 32))%Q
  /\ (F32.to_Q (v4w col) == 1)%Q
  /\ (0 <= F32.to_Q (v4x col) < 1)%Q
  /\ (0 <= F32.to_Q (v4y col) < 1)%Q
  /\ (0 < F32.to_Q (v4z col) <= 1)%Q
  /\ (col = instance_color grid32 cellState pos j -> i = j).
Proof.
  intros Hi Hj col.
  destruct (color_of_instance i cellState pos Hi) as (Hr & Hg & Hb & Ha & _).
  destruct (color_of_instance j cellState pos Hj) as (Hr' & Hg' & _).
  destruct (column_row_range i Hi) as (Hc & Hrow).
  fold col in Hr, Hg, Hb, Ha.
  split; [exact Hr|]. split; [exact Hg|]. split; [exact Hb|]. split; [exact Ha|].
  unfold GRID_SIZE in Hc, Hrow.
  split; [rewrite Hr; unfold Qle, Qlt; simpl; lia|].
  split; [rewrite Hg; unfold Qle, Qlt; simpl; lia|].
  split; [rewrite Hb; unfold Qle, Qlt, Qminus, Qplus, Qopp; simpl; lia|].
  intros Heq. rewrite Heq in Hr, Hg.
  apply column_row.
  - rewrite Hr' in Hr. unfold Qeq in Hr. simpl in Hr. lia.
  - rewrite Hg' in Hg. unfold Qeq in Hg. simpl in Hg. lia.
Qed.

Lemma instance_colors_exact_witness :
  let col := instance_color grid32 [] (Vec2f (F32.of_Z 0) (F32.of_Z 0)) 37 in
  0 <= 37 < GRID_SIZE * GRID_SIZE
  /\ (F32.to_Q (v4x col) == 5 # 32)%Q
  /\ (F32.to_Q (v4y col) == 1 # 32)%Q
  /\ (F32.to_Q (v4z col) == 1 - (5 # 32))%Q.
Proof.
  intros col. split; [unfold GRID_SIZE; lia|].
  destruct (instance_colors_exact 37 37 [] (Vec2f (F32.of_Z 0) (F32.of_Z 0)))
    as (Hr & Hg & Hb & _); [unfold GRID_SIZE; lia | unfold GRID_SIZE; lia |].
  split; [exact Hr|]. split; [exact Hg | exact Hb].
Defined.

(** ** Every run, on every host *)

Lemma graphics_count_26 : graphics_count = 26%nat.
Proof. vm_compute. reflexivity. Qed.

Lemma failures_stop_true rest : failures_stop rest = true.
Proof. vm_compute. reflexivity. Qed.

Lemma failing_probe (j : nat) (b : bool) (rest : nat -> bool) :
  (j < graphics_count)%nat ->
  let r := run (probe true true true (Some j) b rest) in
  is_Ok r.1 = false
  /\ (j <> getContext_index -> stopped_at j r = true).
Proof.
  intros Hj r. subst r.
  pose proof (failures_stop_true rest) as H. unfold failures_stop in H.
  rewrite forallb_forall in H.
  assert (Hin : In (Some j) probes).
  { right. apply in_map, in_seq. rewrite graphics_count_26 in Hj.
    unfold bound. lia. }
  specialize (H _ Hin). cbv beta iota in H.
  rewrite forallb_forall in H. specialize (H b (In_both b)). cbv zeta in H.
  apply orb_prop in H as [H|H].
  { apply Nat.leb_le in H. lia. }
  apply andb_prop in H as [Hok Hstop]. apply negb_true_iff in Hok.
  split; [exact Hok|]. intros Hne.
  apply orb_prop in Hstop as [Hstop|Hstop]; [|exact Hstop].
  apply Nat.eqb_eq in Hstop. contradiction.
Qed.

Lemma first_failure_probe (h : Host) (k : nat) :
  api_ok h k = false ->
  (forall n, (n < k)%nat -> api_ok h n = true) ->
  same_host h (probe (has_canvas h) (has_gpu h) (has_adapter h) (Some k)
                 (api_ok h (S k)) (api_ok h)).
Proof.
  intros Hf Hlt. repeat split; try reflexivity. intros n. simpl.
  destruct (n <? k)%nat eqn:E1; [apply Hlt, Nat.ltb_lt, E1|].
  destruct (n =? k)%nat eqn:E2; [apply Nat.eqb_eq in E2; subst; exact Hf|].
  destruct (n =? S k)%nat eqn:E3; [|reflexivity].
  apply Nat.eqb_eq in E3. subst. reflexivity.
Qed.

(** X9.  The script completes exactly when the page has a canvas,
    [navigator.gpu] is there, an adapter is returned and each of the 26
    graphics calls the script makes succeeds; what the host would answer to
    further calls does not matter. *)
Theorem completes_iff (h : Host) :
  outcome h = Ok tt
  <-> has_canvas h = true /\ has_gpu h = true /\ has_adapter h = true
      /\ forall n, (n < 26)%nat -> api_ok h n = true.
Proof.
  split.
  - intros Hok. destruct (completed_run h Hok) as (_ & Hc & Hg & Ha).
    split; [exact Hc|]. split; [exact Hg|]. split; [exact Ha|].
    intros n Hn.
    destruct (api_ok h n) eqn:E; [reflexivity|]. exfalso.
    destruct (first_failure (api_ok h) (S n)) as [Hall | (k & Hk & Hf & Hlt)].
    { rewrite Hall in E by lia. discriminate. }
    pose proof (first_failure_probe h k Hf Hlt) as Hsame.
    rewrite Hc, Hg, Ha in Hsame.
    destruct (failing_probe k (api_ok h (S k)) (api_ok h)) as (Hnot & _).
    { rewrite graphics_count_26. lia. }
    unfold outcome in Hok. rewrite (run_ext _ _ Hsame) in Hok.
    rewrite Hok in Hnot. discriminate.
  - intros (Hc & Hg & Ha & Hok). unfold outcome.
    rewrite (run_ext h {| has_canvas := true; has_gpu := true; has_adapter := true;
                          api_ok := fun n => if (n <? 26)%nat then true
                                             else api_ok h n |}).
    + vm_compute. reflexivity.
    + split; [exact Hc|]. split; [exact Hg|]. split; [exact Ha|].
      intros n. simpl. destruct (n <? 26)%nat eqn:E; [|reflexivity].
      apply Hok, Nat.ltb_lt, E.
Qed.

(** X10.  With no canvas element in the page, and with [navigator.gpu], an
    adapter and a device obtained, the script throws a [TypeError] at
    [canvas.getContext]: it has made three calls, created no GPU object and
    submitted nothing. *)
Theorem no_canvas_type_error (h : Host) :
  has_canvas h = false -> has_gpu h = true -> has_adapter h = true ->
  api_ok h 0%nat = true -> api_ok h 1%nat = true ->
  outcome h = Throw (TypeError "canvas is null")
  /\ calls h = [QuerySelector "canvas"; RequestAdapter; RequestDevice]
  /\ final_gpu h = empty_gpu.
Proof.
  destruct h as [c g a ok]. simpl. intros -> -> -> H0 H1.
  unfold outcome, calls, final_gpu.
  rewrite (run_ext _ {| has_canvas := false; has_gpu := true; has_adapter := true;
                        api_ok := fun n => if (n <? 2)%nat then true else ok n |}).
  - vm_compute. repeat split.
  - repeat split. intros n. simpl.
    destruct n as [|[|n]]; [exact H0 | exact H1 | reflexivity].
Qed.

Lemma no_canvas_type_error_witness :
  has_canvas no_canvas_host = false
  /\ outcome no_canvas_host = Throw (TypeError "canvas is null")
  /\ final_gpu no_canvas_host = empty_gpu.
Proof.
  split; [reflexivity|].
  pose proof (no_canvas_type_error no_canvas_host eq_refl eq_refl eq_refl
                eq_refl eq_refl) as (H1 & _ & H2).
  split; [exact H1 | exact H2].
Defined.

(** X11.  When [getContext] returns no context, the script still asks for
    the preferred canvas format and then throws a [TypeError] at
    [context.configure]; no GPU object has been created. *)
Theorem null_context_type_error (h : Host) :
  has_canvas h = true -> has_gpu h = true -> has_adapter h = true ->
  api_ok h 0%nat = true -> api_ok h 1%nat = true ->
  api_ok h 2%nat = false -> api_ok h 3%nat = true ->
  outcome h = Throw (TypeError "context is null")
  /\ calls h = [QuerySelector "canvas"; RequestAdapter; RequestDevice;
                GetContext "webgpu"; GetPreferredCanvasFormat]
  /\ final_gpu h = empty_gpu.
Proof.
  destruct h as [c g a ok]. simpl. intros -> -> -> H0 H1 H2 H3.
  unfold outcome, calls, final_gpu.
  rewrite (run_ext _ {| has_canvas := true; has_gpu := true; has_adapter := true;
                        api_ok := fun n => if (n =? 2)%nat then false
                                           else if (n <? 4)%nat then true
                                           else ok n |}).
  - vm_compute. repeat split.
  - repeat split. intros n. simpl.
    destruct n as [|[|[|[|n]]]]; [exact H0 | exact H1 | exact H2 | exact H3 | reflexivity].
Qed.

Lemma null_context_type_error_witness :
  let h := {| has_canvas := true; has_gpu := true; has_adapter := true;
              api_ok := fun n => negb (n =? 2)%nat |} in
  api_ok h 2%nat = false
  /\ outcome h = Throw (TypeError "context is null").
Proof.
  intros h. split; [reflexivity|].
  exact (proj1 (null_context_type_error h eq_refl eq_refl eq_refl eq_refl
                  eq_refl eq_refl eq_refl)).
Defined.

(** X12.  When a graphics call other than [getContext] is the first to
    fail, the script stops at that call: it throws the [OperationError] of
    the call, has made the calls of the complete run up to it and no other,
    the failed call has changed no GPU object, and nothing is submitted. *)
Theorem first_failure_stops (h : Host) (k : nat) :
  has_canvas h = true -> has_gpu h = true -> has_adapter h = true ->
  (k < 26)%nat -> k <> getContext_index ->
  api_ok h k = false ->
  (forall n, (n < k)%nat -> api_ok h n = true) ->
  exists c : Call,
    graphics_calls !! k = Some c
    /\ outcome h = Throw (OperationError c)
    /\ last (calls h) = Some c
    /\ calls h `prefix_of` calls ideal_host
    /\ filter is_graphics_call (calls h) = take (S k) graphics_calls
    /\ final_gpu h = gpu_after (removelast (calls h))
    /\ queue (final_gpu h) = [].
Proof.
  intros Hc Hg Ha Hk Hne Hf Hlt.
  pose proof (first_failure_probe h k Hf Hlt) as Hsame.
  rewrite Hc, Hg, Ha in Hsame.
  destruct (failing_probe k (api_ok h (S k)) (api_ok h)) as (_ & Hstop).
  { rewrite graphics_count_26. exact Hk. }
  specialize (Hstop Hne).
  rewrite full_calls_eq.
  unfold outcome, calls, final_gpu. rewrite (run_ext _ _ Hsame).
  destruct (run _) as [r s]. unfold stopped_at in Hstop. cbn [fst snd] in *.
  destruct r as [[]|[msg|msg|c]|]; try discriminate.
  destruct (graphics_calls !! k) as [c'|]; [|discriminate].
  apply andb_prop in Hstop as [Hstop Hq]. apply andb_prop in Hstop as [Hstop Hgpu].
  apply andb_prop in Hstop as [Hstop Hfil]. apply andb_prop in Hstop as [Hstop Hpre].
  apply andb_prop in Hstop as [Hc' Hhead].
  apply bool_decide_eq_true_1 in Hq, Hgpu, Hfil, Hpre, Hc', Hhead. subst c'.
  exists c. split; [reflexivity|]. split; [reflexivity|].
  destruct (trace s) as [|x t] eqn:Et; [discriminate|].
  cbn [head] in Hhead. injection Hhead as ->.
  cbn [tail] in Hgpu. cbn [rev] in *.
  split; [apply last_snoc|].
  split; [rewrite Hpre; apply prefix_take|].
  split; [exact Hfil|].
  split; [rewrite removelast_last; exact Hgpu | exact Hq].
Qed.

Lemma first_failure_stops_witness :
  let h := {| has_canvas := true; has_gpu := true; has_adapter := true;
              api_ok := fun n => (n <? 23)%nat |} in
  api_ok h 23%nat = false
  /\ outcome h = Throw (OperationError (EndPass 7%nat))
  /\ queue (final_gpu h) = [].
Proof.
  intros h. split; [reflexivity|].
  destruct (first_failure_stops h 23) as (c & Hc & Ho & _ & _ & _ & _ & Hq);
    try reflexivity; try (unfold getContext_index; lia).
  { intros n Hn. apply Nat.ltb_lt. exact Hn. }
  split; [|exact Hq]. rewrite Ho. f_equal. f_equal.
  assert (Hk : graphics_calls !! 23%nat = Some (EndPass 7%nat)) by (vm_compute; reflexivity).
  congruence.
Defined.

(** ** Order of the calls, and the reach of the draw call *)

Lemma in_order_b_spec (l : list Call) : in_order_b l = true -> in_order l.
Proof.
  unfold in_order_b, in_order. intros H j c P Hj HP.
  rewrite forallb_forall in H.
  assert (Hlt : (j < length l)%nat) by (eapply lookup_lt_Some; exact Hj).
  assert (Hin : In j (seq 0 (length l))) by (apply in_seq; lia).
  specialize (H j Hin). rewrite Hj in H.
  rewrite forallb_forall in H. specialize (H P HP).
  apply existsb_exists in H as (c' & Hc' & HPc).
  apply list_elem_of_In, list_elem_of_lookup in Hc' as (i & Hi).
  exists i, c'. apply lookup_take_Some in Hi as (Hi & Hij).
  split; [exact Hij|]. split; [exact Hi | exact HPc].
Qed.

Lemma in_order_prefix (l1 l2 : list Call) :
  l1 `prefix_of` l2 -> in_order l2 -> in_order l1.
Proof.
  intros (k & ->) H j c P Hj HP.
  destruct (H j c P) as (i & c' & Hij & Hi & HPc); [|exact HP|].
  { apply lookup_app_l_Some. exact Hj. }
  exists i, c'. split; [exact Hij|]. split; [|exact HPc].
  assert (Hlt : (j < length l1)%nat) by (eapply lookup_lt_Some; exact Hj).
  rewrite lookup_app_l in Hi by lia. exact Hi.
Qed.

Lemma full_calls_in_order : in_order full_calls.
Proof. apply in_order_b_spec. vm_compute. reflexivity. Qed.

(** X13.  On every host and however far the run gets, the script uses
    nothing before it exists: every call comes after the calls that create
    the objects it names; a buffer is bound only after it was written; a
    draw call comes after the pipeline, the vertex buffer and the bind group
    were set in its pass; the encoder is finished after the pass has ended
    and its command buffer is submitted after that. *)
Theorem created_before_use (h : Host) : in_order (calls h).
Proof.
  apply (in_order_prefix (calls h) full_calls).
  - apply calls_prefix.
  - exact full_calls_in_order.
Qed.

Lemma rendered_frame : rendered (gpu final_state) the_draw = frame.
Proof. vm_compute. reflexivity. Qed.

Lemma cell_state_length : length (default [] cellStateArray) = 1024%nat.
Proof. vm_compute. reflexivity. Qed.

Lemma final_draw_in_bounds : draw_in_bounds (gpu final_state) the_draw = true.
Proof. vm_compute. reflexivity. Qed.

(** X14.  In a completed run the draw call fetches nothing past the end of
    a buffer: its vertex buffer, created for vertex use, holds exactly
    [vertexCount] vertices of 8 bytes; its storage buffer, created for
    storage use, holds exactly one flag per instance, so that
    [cellState[instance]] is read inside the array for every instance; its
    uniform buffer is created for uniform use; and every vertex of every
    instance is shaded. *)
Theorem draw_reads_in_bounds (h : Host) :
  outcome h = Ok tt ->
  forall dc : DrawCall, dc ∈ queue (final_gpu h) ->
  draw_in_bounds (final_gpu h) dc = true
  /\ exists (bs : Bindings) (outs : list (list VertexOutput)),
       bindings (final_gpu h) dc = Some bs
       /\ rendered (final_gpu h) dc = Some outs
       /\ 4 * Z.of_nat (length (bound_vertices bs)) = dc_vertexCount dc * arrayStride
       /\ Z.of_nat (length (bound_cellState bs)) = dc_instanceCount dc
       /\ Z.of_nat (length outs) = dc_instanceCount dc
       /\ (forall o, In o outs -> Z.of_nat (length o) = dc_vertexCount dc)
       /\ (forall i : Z, 0 <= i < dc_instanceCount dc ->
             is_Some (bound_cellState bs !! Z.to_nat i))
       /\ (forall v : nat, (Z.of_nat v < dc_vertexCount dc) ->
             is_Some (vertex_pos (bound_vertices bs) v)).
Proof.
  intros Hok dc Hdc. rewrite (completed_gpu h Hok) in Hdc |- *.
  rewrite final_queue in Hdc. apply list_elem_of_singleton in Hdc as ->.
  split; [exact final_draw_in_bounds|].
  destruct frame_collapses as (outs & Hframe & Hfok).
  exists {| bound_vertices := vertices; bound_grid := grid32;
            bound_cellState := default [] cellStateArray |}, outs.
  split; [exact final_bindings|].
  split; [rewrite rendered_frame; exact Hframe|].
  cbn [bound_vertices bound_cellState].
  rewrite vertices_length, cell_state_length.
  change (dc_vertexCount the_draw) with 6.
  change (dc_instanceCount the_draw) with 1024.
  unfold frame_ok in Hfok. apply andb_prop in Hfok as [Hlen Hall].
  apply Nat.eqb_eq in Hlen.
  split; [reflexivity|]. split; [reflexivity|]. split; [lia|].
  split.
  { intros o Ho. rewrite forallb_forall in Hall.
    apply list_elem_of_In, list_elem_of_lookup in Ho as (i & Hi).
    assert (Hi' : (i < 1024)%nat) by (rewrite <- Hlen; eapply lookup_lt_Some; exact Hi).
    assert (Hz : In (i, o) (zip (seq 0 1024) outs)).
    { apply list_elem_of_In, list_elem_of_lookup. exists i.
      apply lookup_zip_with_Some. exists i, o. split; [reflexivity|].
      split; [apply lookup_seq_lt; exact Hi' | exact Hi]. }
    specialize (Hall _ Hz). cbn [fst snd] in Hall.
    apply andb_prop in Hall as [Hall _]. apply Nat.eqb_eq in Hall. lia. }
  split.
  - intros i Hi. apply lookup_lt_is_Some. rewrite cell_state_length. lia.
  - intros v Hv. unfold vertex_pos, arrayStride.
    assert (Hw : Z.to_nat (Z.of_nat v * 8 / 4) = (2 * v)%nat).
    { replace (Z.of_nat v * 8) with (Z.of_nat (2 * v) * 4) by lia.
      rewrite Z.div_mul by lia. apply Nat2Z.id. }
    rewrite Hw.
    destruct (lookup_lt_is_Some_2 vertices (2 * v)) as (x & ->);
      [rewrite vertices_length; lia|].
    destruct (lookup_lt_is_Some_2 vertices (S (2 * v))) as (y & ->);
      [rewrite vertices_length; lia|].
    eexists. reflexivity.
Qed.

Lemma draw_reads_in_bounds_witness :
  outcome ideal_host = Ok tt
  /\ the_draw ∈ queue (final_gpu ideal_host)
  /\ draw_in_bounds (final_gpu ideal_host) the_draw = true.
Proof.
  assert (Hok : outcome ideal_host = Ok tt) by (vm_compute; reflexivity).
  assert (Hin : the_draw ∈ queue (final_gpu ideal_host)).
  { change (final_gpu ideal_host) with (gpu final_state).
    rewrite final_queue. apply list_elem_of_singleton. reflexivity. }
  split; [exact Hok|]. split; [exact Hin|].
  exact (proj1 (draw_reads_in_bounds ideal_host Hok the_draw Hin)).
Defined.
